(** * Wizzzey store admin: stock lookup, order triage and product forms

    A shallow embedding of the view logic of the admin dashboard:
    - [BrandDailyOrdersTab] (brands/[id]/edit/page.tsx): [checkSoftStock],
      the header "select all" handler and [handleSubmitSelected];
    - [ProductForm] (products/components/ProductForm.tsx): [productSchema]
      and [onSubmit];
    - [ProductsPage] (same file, second document): [fetchData] and
      [handleConfirmDelete].

    Event handlers are written in a small state/log/exception monad; the
    backend client ([@/lib/apiService]) is not part of the sources, so every
    handler takes the outcome of each backend call as an argument. *)

From Stdlib Require Import ZArith String Ascii List Bool Lia DecimalString.
From stdpp Require Import base strings gmap list.

Open Scope string_scope.
Open Scope list_scope.

(** ** JavaScript values *)

Module Js.

(** [String.prototype.toLowerCase], on the ASCII letters. *)
Definition lowerAscii (c : ascii) : ascii :=
  let n := nat_of_ascii c in
  if (65 <=? n)%nat && (n <=? 90)%nat then ascii_of_nat (n + 32) else c.

Fixpoint toLowerCase (s : string) : string :=
  match s with
  | EmptyString => EmptyString
  | String c s' => String (lowerAscii c) (toLowerCase s')
  end.

(** Truthiness of a [string | undefined]: [undefined] and [""] are falsy. *)
Definition truthy (v : option string) : bool :=
  match v with
  | Some s => negb (s =? "")
  | None => false
  end.

(** [a || b] for an optional string [a] and a string literal [b]. *)
Definition orElse (a : option string) (b : string) : string :=
  if truthy a then default b a else b.

(** [Array.prototype.includes] on strings. *)
Definition includes (l : list string) (x : string) : bool :=
  existsb (String.eqb x) l.

(** A JavaScript number as far as the forms need one: NaN, or the finite
    decimal [mantissa / 10 ^ scale]. *)
Inductive number := NaN | Dec (mantissa : Z) (scale : nat).

(** [n >= 0]. *)
Definition geZero (n : number) : bool :=
  match n with
  | NaN => false
  | Dec m _ => (0 <=? m)%Z
  end.

(** [Number.isInteger(n)]. *)
Definition isInteger (n : number) : bool :=
  match n with
  | NaN => false
  | Dec m k => (m mod 10 ^ Z.of_nat k =? 0)%Z
  end.

(** Truthiness of a number: [0] and [NaN] are falsy. *)
Definition numberTruthy (n : number) : bool :=
  match n with
  | NaN => false
  | Dec m _ => negb (m =? 0)%Z
  end.

Definition digitValue (c : ascii) : option Z :=
  let n := nat_of_ascii c in
  if (48 <=? n)%nat && (n <=? 57)%nat then Some (Z.of_nat (n - 48)) else None.

(** Reads the leading digits of [s] onto the accumulator; returns the
    value, how many digits were read, and the rest of the string. *)
Fixpoint readDigits (s : string) (acc : Z) (count : nat) : Z * nat * string :=
  match s with
  | String c s' =>
      match digitValue c with
      | Some d => readDigits s' (10 * acc + d)%Z (S count)
      | None => (acc, count, s)
      end
  | EmptyString => (acc, count, s)
  end.

(** [digits], [digits.digits], [digits.] or [.digits]: mantissa and scale. *)
Definition parseUnsigned (s : string) : option (Z * nat) :=
  let '(i, ni, rest) := readDigits s 0 0 in
  match rest with
  | EmptyString => if (ni =? 0)%nat then None else Some (i, 0%nat)
  | String "."%char rest' =>
      let '(m, nf, rest'') := readDigits rest' i 0 in
      match rest'' with
      | EmptyString => if (ni + nf =? 0)%nat then None else Some (m, nf)
      | _ => None
      end
  | _ => None
  end.

(** [Number(s)] on the plain decimal literals: an optional sign, digits and
    an optional fraction; the empty string is [0].  The other numeric
    literal forms (exponents, radix prefixes, [Infinity], surrounding white
    space) are outside this model and read as [NaN] here. *)
Definition Number (s : string) : number :=
  match s with
  | EmptyString => Dec 0 0
  | String "-"%char s' =>
      match parseUnsigned s' with
      | Some (m, k) => Dec (- m) k
      | None => NaN
      end
  | String "+"%char s' =>
      match parseUnsigned s' with
      | Some (m, k) => Dec m k
      | None => NaN
      end
  | _ =>
      match parseUnsigned s with
      | Some (m, k) => Dec m k
      | None => NaN
      end
  end.

End Js.

(** ** Stock-status lookup (brands/[id]/edit/page.tsx) *)

Module Stock.

(** Modelled from the spec: [SoftInventoryItem] of types/ecommerce, which the
    sources import but do not include: sku, size, optional color, quantity. *)
Record SoftInventoryItem := {
  si_sku : string;
  si_size : string;
  si_color : option string;
  si_quantity : Z
}.

(** The predicate handed to [Array.prototype.find]:
    [si.sku === sku && si.size === size &&
     (color ? si.color?.toLowerCase() === color.toLowerCase() : true)]. *)
Definition lineMatches (sku size : string) (color : option string)
    (si : SoftInventoryItem) : bool :=
  (si_sku si =? sku) && (si_size si =? size) &&
  (if Js.truthy color then
     match si_color si, color with
     | Some c', Some c => Js.toLowerCase c' =? Js.toLowerCase c
     | _, _ => false
     end
   else true).

(** [checkSoftStock]: the first matching entry decides. *)
Definition checkSoftStock (sku size : string) (color : option string)
    (softInventory : list SoftInventoryItem) : bool :=
  match find (lineMatches sku size color) softInventory with
  | Some item => (0 <? si_quantity item)%Z
  | None => false
  end.

(** The matching relation in the words of the specification: equal sku and
    size, and, when the line names a colour, the same colour up to case. *)
Definition Matches (sku size : string) (color : option string)
    (si : SoftInventoryItem) : Prop :=
  si_sku si = sku /\ si_size si = size /\
  (forall c, color = Some c -> c <> "" ->
     exists c', si_color si = Some c' /\ Js.toLowerCase c' = Js.toLowerCase c).

(** The specification's reading of the lookup: some matching entry has
    positive quantity. *)
Definition inStockSomewhere (sku size : string) (color : option string)
    (softInventory : list SoftInventoryItem) : Prop :=
  exists si, In si softInventory /\ Matches sku size color si /\ (si_quantity si > 0)%Z.

(** What the code computes: the first matching entry has positive quantity. *)
Definition firstMatchInStock (sku size : string) (color : option string)
    (softInventory : list SoftInventoryItem) : Prop :=
  exists before si after,
    softInventory = before ++ si :: after /\
    (forall x, In x before -> ~ Matches sku size color x) /\
    Matches sku size color si /\ (si_quantity si > 0)%Z.

End Stock.

(** ** Effects of an event handler *)

Module Eff.

(** What a [catch] clause can read of a thrown or rejected value: its
    [message] property, if any. *)
Definition exn : Type := option string.

Inductive result (A : Type) : Type :=
| Returned (a : A)
| Thrown (e : exn).
Arguments Returned {A} a.
Arguments Thrown {A} e.

(** The settled state of the promise returned by a backend call. *)
Inductive awaited (R : Type) : Type :=
| Fulfilled (r : R)
| Rejected (e : exn).
Arguments Fulfilled {R} r.
Arguments Rejected {R} e.

Section Monad.
Context {S E : Type}.

(** A handler step: from the component state and the log of what the
    handler did to the outside (toasts, requests, navigation) so far, to
    a result, the new state and the extended log. *)
Definition M (A : Type) : Type := S -> list E -> result A * S * list E.

Definition ret {A} (a : A) : M A := fun s l => (Returned a, s, l).

Definition bind {A B} (m : M A) (k : A -> M B) : M B :=
  fun s l =>
    match m s l with
    | (Returned a, s', l') => k a s' l'
    | (Thrown e, s', l') => (Thrown e, s', l')
    end.

Definition throw {A} (e : exn) : M A := fun s l => (Thrown e, s, l).

(** A state setter ([setX(v)] or [setX(prev => ...)]). *)
Definition modify (f : S -> S) : M unit := fun s l => (Returned tt, f s, l).

(** Something observable outside the component. *)
Definition emit (e : E) : M unit := fun s l => (Returned tt, s, l ++ [e]).

(** [await p] for a promise that settles as [p]. *)
Definition await {R} (p : awaited R) : M R :=
  match p with
  | Fulfilled r => ret r
  | Rejected e => throw e
  end.

(** [try { body } catch (e) { handler e } finally { fin }]. *)
Definition tryCatchFinally {A} (body : M A) (handler : exn -> M A) (fin : M unit) : M A :=
  fun s l =>
    let '(r, s1, l1) :=
      match body s l with
      | (Thrown e, s', l') => handler e s' l'
      | done => done
      end in
    match fin s1 l1 with
    | (Returned _, s2, l2) => (r, s2, l2)
    | (Thrown e, s2, l2) => (Thrown e, s2, l2)
    end.

(** Final state and log of a handler started in state [s]. *)
Definition run {A} (m : M A) (s : S) : S * list E :=
  let '(_, s', l) := m s [] in (s', l).

End Monad.

Arguments M : clear implicits.

(** Sequencing is written with the usual [x ← m; k] and [m;; k]. *)
#[export] Instance M_ret {S E} : MRet (M S E) := fun A => @ret S E A.
#[export] Instance M_bind {S E} : MBind (M S E) := fun A B k m => @bind S E A B m k.

End Eff.

(** ** The response envelope *)

Module Api.

Inductive ResponseType := OK | ERROR.

Definition isOK (t : ResponseType) : bool :=
  match t with OK => true | ERROR => false end.

(** Modelled from the spec: the envelope's [{ totalPages, page, pageSize }]. *)
Record Pagination := {
  totalPages : Z;
  page : Z;
  pageSize : Z
}.

(** Modelled from the spec: the envelope every call of lib/apiService
    resolves to, [{ type, data?, message?, pagination? }]. *)
Record ApiResponse (D : Type) := {
  type : ResponseType;
  data : option D;
  message : option string;
  pagination : option Pagination
}.
Arguments type {D} _.
Arguments data {D} _.
Arguments message {D} _.
Arguments pagination {D} _.

Inductive Variant := Default | Destructive.

(** The argument of [toast({ title, description, variant })]. *)
Record Toast := {
  title : string;
  description : string;
  variant : option Variant
}.

End Api.

(** ** The daily-orders tab (brands/[id]/edit/page.tsx) *)

Module BrandDailyOrdersTab.
Import Eff Api Stock.

(** Modelled from the spec: [BrandDailyOrderItem] of types/ecommerce: id,
    sku, optional color, size, quantity. *)
Record BrandDailyOrderItem := {
  id : string;
  sku : string;
  color : option string;
  size : string;
  quantity : Z
}.

(** A table row: the table's own row id and the order it renders. *)
Record Row := {
  row_id : string;
  original : BrandDailyOrderItem
}.

(** The [checked] argument of a checkbox's [onCheckedChange]. *)
Inductive CheckedState := Checked (b : bool) | Indeterminate.

Definition checkedTruthy (value : CheckedState) : bool :=
  match value with
  | Checked b => b
  | Indeterminate => true
  end.

(** [checkSoftStock(o.sku, o.size, o.color, softInventory)]. *)
Definition isInStock (softInventory : list SoftInventoryItem) (o : BrandDailyOrderItem) : bool :=
  checkSoftStock (sku o) (size o) (color o) softInventory.

(** The header checkbox's [onCheckedChange]: the argument of
    [table.setRowSelection], for the rows of [table.getFilteredRowModel()]. *)
Definition selectAllOnCheckedChange (rows : list Row)
    (softInventory : list SoftInventoryItem) (value : CheckedState) : gmap string bool :=
  let outOfStockRowIds :=
    map row_id (List.filter (fun row => negb (isInStock softInventory (original row))) rows) in
  let newSelection : gmap string bool := ∅ in
  if checkedTruthy value
  then fold_left (fun sel id => <[id := true]> sel) outOfStockRowIds newSelection
  else newSelection.

(** [isOutOfStockHeader], and whether the header renders a checkbox at all. *)
Definition isOutOfStockHeader (rows : list Row) (softInventory : list SoftInventoryItem) : bool :=
  existsb (fun row => negb (isInStock softInventory (original row))) rows.

Definition headerShowsCheckbox (rows : list Row) (softInventory : list SoftInventoryItem) : bool :=
  negb (negb (isOutOfStockHeader rows softInventory) && (0 <? length rows)%nat).

Record Props := {
  brandId : string;
  brandName : string;
  today : string
}.

Record State := {
  dailyOrders : list BrandDailyOrderItem;
  softInventory : list SoftInventoryItem;
  isLoading : bool;
  isSubmitting : bool;
  rowSelection : gmap string bool
}.

Definition setDailyOrders v (s : State) : State :=
  {| dailyOrders := v; softInventory := softInventory s; isLoading := isLoading s;
     isSubmitting := isSubmitting s; rowSelection := rowSelection s |}.
Definition setSoftInventory v (s : State) : State :=
  {| dailyOrders := dailyOrders s; softInventory := v; isLoading := isLoading s;
     isSubmitting := isSubmitting s; rowSelection := rowSelection s |}.
Definition setIsLoading v (s : State) : State :=
  {| dailyOrders := dailyOrders s; softInventory := softInventory s; isLoading := v;
     isSubmitting := isSubmitting s; rowSelection := rowSelection s |}.
Definition setIsSubmitting v (s : State) : State :=
  {| dailyOrders := dailyOrders s; softInventory := softInventory s; isLoading := isLoading s;
     isSubmitting := v; rowSelection := rowSelection s |}.
Definition setRowSelection v (s : State) : State :=
  {| dailyOrders := dailyOrders s; softInventory := softInventory s; isLoading := isLoading s;
     isSubmitting := isSubmitting s; rowSelection := v |}.

Record OrdersData := { orders : option (list BrandDailyOrderItem) }.
Record SoftInventoryData := { softInventoryItems : option (list SoftInventoryItem) }.

(** The mocked client: how each call settles, as a function of its arguments. *)
Record Backend := {
  getBrandDailyOrders : string -> string -> awaited (ApiResponse OrdersData);
  getSoftInventoryItems : Z -> Z -> string -> awaited (ApiResponse SoftInventoryData);
  submitBrandOrdersToPlaced : string -> list string -> awaited (ApiResponse unit)
}.

Inductive Event :=
| EToast (t : Toast)
| EWarn (text : string) (detail : option string)
| EGetBrandDailyOrders (brand date : string)
| EGetSoftInventoryItems (page limit : Z) (brand : string)
| ESubmitBrandOrdersToPlaced (brand : string) (orderIds : list string).

Definition toast (ttl desc : string) (v : option Variant) : M State Event unit :=
  emit (EToast {| title := ttl; description := desc; variant := v |}).

(** [fetchData] up to its [await]: the loading flag is raised and both
    requests are issued. *)
Definition fetchData_start (p : Props) : M State Event unit :=
  modify (setIsLoading true);;
  emit (EGetBrandDailyOrders (brandId p) (today p));;
  emit (EGetSoftInventoryItems 1 500 (brandName p)).

(** [fetchData] from the [await Promise.all] on. *)
Definition fetchData_resume (api : Backend) (p : Props) : M State Event unit :=
  tryCatchFinally
    (ordersResponse ← await (getBrandDailyOrders api (brandId p) (today p));
     softInventoryResponse ← await (getSoftInventoryItems api 1 500 (brandName p));
     (match type ordersResponse, data ordersResponse ≫= orders with
      | OK, Some os => modify (setDailyOrders os)
      | _, _ => toast "Error" (Js.orElse (message ordersResponse) "Failed to fetch daily orders.")
                  (Some Destructive)
      end);;
     (match type softInventoryResponse, data softInventoryResponse ≫= softInventoryItems with
      | OK, Some items => modify (setSoftInventory items)
      | _, _ => emit (EWarn "Could not fetch soft inventory:" (message softInventoryResponse));;
                modify (setSoftInventory [])
      end))
    (fun _ => toast "Error" "An error occurred while fetching data." (Some Destructive))
    (modify (setIsLoading false)).

Definition fetchData (api : Backend) (p : Props) : M State Event unit :=
  fetchData_start p;; fetchData_resume api p.

(** [Object.keys(rowSelection).filter(id => rowSelection[id])]; only
    membership in this list is ever used. *)
Definition selectedOrderIds (sel : gmap string bool) : list string :=
  List.filter (fun id => default false (sel !! id)) (map fst (map_to_list sel)).

(** [dailyOrders.filter(order => selectedOrderIds.includes(order.id))]. *)
Definition ordersToSubmit (s : State) : list BrandDailyOrderItem :=
  List.filter (fun order => Js.includes (selectedOrderIds (rowSelection s)) (id order))
    (dailyOrders s).

(** The client-side re-check of the selected orders. *)
Definition actualOutOfStockOrders (s : State) : list BrandDailyOrderItem :=
  List.filter (fun order => negb (isInStock (softInventory s) order)) (ordersToSubmit s).

Definition showNat (n : nat) : string := NilEmpty.string_of_uint (Nat.to_uint n).

(** [handleSubmitSelected], for the render whose state is [cur], up to the
    point where the handler itself is done; the result tells whether it
    left a [fetchData()] running. *)
Definition handleSubmitSelected_body (api : Backend) (p : Props) (cur : State)
    : M State Event bool :=
  modify (setIsSubmitting true);;
  if (length (ordersToSubmit cur) =? 0)%nat then
    toast "No Orders Selected" "Please select out-of-stock orders to submit." (Some Default);;
    modify (setIsSubmitting false);;
    mret false
  else if (length (actualOutOfStockOrders cur) =? 0)%nat then
    toast "No Out-of-Stock Orders"
      "All selected orders appear to be in stock. No action taken." (Some Default);;
    modify (setIsSubmitting false);;
    modify (setRowSelection ∅);;
    mret false
  else
    let ids := map id (actualOutOfStockOrders cur) in
    tryCatchFinally
      (emit (ESubmitBrandOrdersToPlaced (brandId p) ids);;
       response ← await (submitBrandOrdersToPlaced api (brandId p) ids);
       match type response with
       | OK =>
           toast "Success"
             (showNat (length (actualOutOfStockOrders cur)) ++ " orders submitted to 'Order Placed'.")%string
             None;;
           modify (setRowSelection ∅);;
           fetchData_start p;;
           mret true
       | ERROR =>
           toast "Error" (Js.orElse (message response) "Failed to submit orders.")
             (Some Destructive);;
           mret false
       end)
      (fun _ =>
         toast "Error" "An error occurred during submission." (Some Destructive);;
         mret false)
      (modify (setIsSubmitting false)).

(** The handler followed by the rest of the [fetchData()] it started. *)
Definition handleSubmitSelected (api : Backend) (p : Props) (cur : State)
    : M State Event unit :=
  refetching ← handleSubmitSelected_body api p cur;
  if refetching : bool then fetchData_resume api p else mret tt.

(** Clicking "Submit Selected" in the render of state [s]. *)
Definition clickSubmitSelected (api : Backend) (p : Props) (s : State) : State * list Event :=
  run (handleSubmitSelected api p s) s.

Definition isSubmitCall (e : Event) : bool :=
  match e with ESubmitBrandOrdersToPlaced _ _ => true | _ => false end.

(** Notions used to state the properties below: the two notices of the
    submit handler, and the events that are requests to the backend. *)

Definition noOrdersSelected : Event :=
  EToast {| title := "No Orders Selected";
            description := "Please select out-of-stock orders to submit.";
            variant := Some Default |}.

Definition noOutOfStockOrders : Event :=
  EToast {| title := "No Out-of-Stock Orders";
            description := "All selected orders appear to be in stock. No action taken.";
            variant := Some Default |}.

Definition isNetworkCall (e : Event) : bool :=
  match e with
  | EGetBrandDailyOrders _ _ | EGetSoftInventoryItems _ _ _
  | ESubmitBrandOrdersToPlaced _ _ => true
  | _ => false
  end.

End BrandDailyOrdersTab.

(** ** Entities *)

Module Ecommerce.

(** Modelled from the spec: [Product] of types/ecommerce, with the fields
    the data model lists; a field is optional where the form guards it with
    [||], [??] or [?.]. *)
Record Product := {
  id : string;
  name : string;
  description : option string;
  price : Js.number;
  categoryId : string;
  brandId : option string;
  sku : option string;
  stock : Js.number;
  inStock : option bool;
  status : option string;
  isFeatured : option bool;
  images : option (list string)
}.

End Ecommerce.

(** ** The products list page (second document of ProductForm.tsx) *)

Module ProductsPage.
Import Eff Api.
Export Ecommerce.

(** The client-held pagination state. *)
Record PaginationState := {
  pageIndex : Z;
  pageSize : Z;
  pageCount : Z
}.

Record State := {
  products : list Product;
  isLoading : bool;
  pagination : PaginationState;
  isConfirmDeleteDialogOpen : bool;
  itemToDeleteId : option string
}.

Definition setProducts v (s : State) : State :=
  {| products := v; isLoading := isLoading s; pagination := pagination s;
     isConfirmDeleteDialogOpen := isConfirmDeleteDialogOpen s;
     itemToDeleteId := itemToDeleteId s |}.
Definition setIsLoading v (s : State) : State :=
  {| products := products s; isLoading := v; pagination := pagination s;
     isConfirmDeleteDialogOpen := isConfirmDeleteDialogOpen s;
     itemToDeleteId := itemToDeleteId s |}.
(** [setPagination(prev => f prev)]. *)
Definition setPagination (f : PaginationState -> PaginationState) (s : State) : State :=
  {| products := products s; isLoading := isLoading s; pagination := f (pagination s);
     isConfirmDeleteDialogOpen := isConfirmDeleteDialogOpen s;
     itemToDeleteId := itemToDeleteId s |}.
Definition setIsConfirmDeleteDialogOpen v (s : State) : State :=
  {| products := products s; isLoading := isLoading s; pagination := pagination s;
     isConfirmDeleteDialogOpen := v; itemToDeleteId := itemToDeleteId s |}.
Definition setItemToDeleteId v (s : State) : State :=
  {| products := products s; isLoading := isLoading s; pagination := pagination s;
     isConfirmDeleteDialogOpen := isConfirmDeleteDialogOpen s; itemToDeleteId := v |}.

(** [{ ...prev, pageCount: totalPages }]. *)
Definition withPageCount (n : Z) (prev : PaginationState) : PaginationState :=
  {| pageIndex := pageIndex prev; pageSize := pageSize prev; pageCount := n |}.

Record ProductsData := { data_products : option (list Product) }.

Record Backend := {
  getProducts : Z -> Z -> awaited (ApiResponse ProductsData);
  deleteProduct : string -> awaited (ApiResponse unit)
}.

Inductive Event :=
| EToast (t : Toast)
| EGetProducts (page limit : Z)
| EDeleteProduct (productId : string).

Definition toast (ttl desc : string) (v : option Variant) : M State Event unit :=
  emit (EToast {| Api.title := ttl; Api.description := desc; Api.variant := v |}).

(** [fetchData] of the render whose state is [cur], up to its [await]. *)
Definition fetchData_start (cur : State) : M State Event unit :=
  modify (setIsLoading true);;
  emit (EGetProducts (pageIndex (pagination cur) + 1) (pageSize (pagination cur))).

(** [fetchData] from the [await] on. *)
Definition fetchData_resume (api : Backend) (cur : State) : M State Event unit :=
  tryCatchFinally
    (response ← await (getProducts api (pageIndex (pagination cur) + 1) (pageSize (pagination cur)));
     match type response, data response ≫= data_products with
     | OK, Some ps =>
         modify (setProducts ps);;
         match Api.pagination response with
         | Some pg => modify (setPagination (withPageCount (totalPages pg)))
         | None => mret tt
         end
     | _, _ =>
         toast "Error" (Js.orElse (message response) "Failed to fetch products.")
           (Some Destructive)
     end)
    (fun _ => toast "Error" "An error occurred while fetching products." (Some Destructive))
    (modify (setIsLoading false)).

Definition fetchData (api : Backend) (cur : State) : M State Event unit :=
  fetchData_start cur;; fetchData_resume api cur.

(** State and log after one [fetchData] of the render of state [s]. *)
Definition runFetchData (api : Backend) (s : State) : State * list Event :=
  run (fetchData api s) s.

(** [handleDeleteRequested]. *)
Definition handleDeleteRequested (productId : string) : M State Event unit :=
  modify (setItemToDeleteId (Some productId));;
  modify (setIsConfirmDeleteDialogOpen true).

(** [handleConfirmDelete] up to the end of the handler itself; the result
    tells whether it left a [fetchData()] running. *)
Definition handleConfirmDelete_body (api : Backend) (cur : State) : M State Event bool :=
  match itemToDeleteId cur with
  | Some productId =>
      if Js.truthy (Some productId) then
        modify (setIsLoading true);;
        tryCatchFinally
          (emit (EDeleteProduct productId);;
           response ← await (deleteProduct api productId);
           match type response with
           | OK =>
               toast "Success" "Product deleted successfully." None;;
               fetchData_start cur;;
               mret true
           | ERROR =>
               toast "Error" (Js.orElse (message response) "Failed to delete product.")
                 (Some Destructive);;
               mret false
           end)
          (fun _ => toast "Error" "An error occurred." (Some Destructive);; mret false)
          (modify (setIsLoading false);;
           modify (setIsConfirmDeleteDialogOpen false);;
           modify (setItemToDeleteId None))
      else mret false
  | None => mret false
  end.

(** The handler followed by the rest of the [fetchData()] it started. *)
Definition handleConfirmDelete (api : Backend) (cur : State) : M State Event unit :=
  refetching ← handleConfirmDelete_body api cur;
  if refetching : bool then fetchData_resume api cur else mret tt.

(** Confirming the dialog in the render of state [s]. *)
Definition confirmDelete (api : Backend) (s : State) : State * list Event :=
  run (handleConfirmDelete api s) s.

(** Notions used to state the properties below. *)

(** The request [fetchData] makes for the render of state [s]. *)
Definition currentPage (api : Backend) (s : State) : awaited (ApiResponse ProductsData) :=
  getProducts api (pageIndex (pagination s) + 1) (pageSize (pagination s)).

Definition deleted : Event :=
  EToast {| Api.title := "Success"; Api.description := "Product deleted successfully.";
            Api.variant := None |}.

End ProductsPage.

(** ** Schema validation (zod) *)

Module Zod.

Inductive seg := Key (k : string) | Index (i : nat).

(** A validation issue: where, and the message the schema gives for it
    ([None] where the schema gives none and the library's own applies). *)
Record Issue := {
  path : list seg;
  issue_message : option string
}.

Inductive SafeParse (T : Type) : Type :=
| Success (data : T)
| Failure (issues : list Issue).
Arguments Success {T} data.
Arguments Failure {T} issues.

Definition issuesOf {T} (r : SafeParse T) : list Issue :=
  match r with
  | Success _ => []
  | Failure issues => issues
  end.

Definition isSuccess {T} (r : SafeParse T) : bool :=
  match r with
  | Success _ => true
  | Failure _ => false
  end.

(** What a form field bound to a numeric schema can hold. *)
Inductive FieldValue := FUndefined | FStr (s : string) | FNum (n : Js.number).

(** [z.string().min(n, msg)]. *)
Definition stringMin (n : nat) (msg : string) (p : list seg) (v : option string)
    : SafeParse string :=
  match v with
  | None => Failure [{| path := p; issue_message := None |}]
  | Some s =>
      if (n <=? String.length s)%nat then Success s
      else Failure [{| path := p; issue_message := Some msg |}]
  end.

(** The coercion of [z.coerce.number()]: [Number(input)]. *)
Definition coerce (v : FieldValue) : Js.number :=
  match v with
  | FUndefined => Js.NaN
  | FStr s => Js.Number s
  | FNum n => n
  end.

(** [z.coerce.number().min(0, msg)]: NaN is a type error, then the bound. *)
Definition coerceNumberMin0 (msg : string) (p : list seg) (v : FieldValue)
    : SafeParse Js.number :=
  match coerce v with
  | Js.NaN => Failure [{| path := p; issue_message := None |}]
  | n =>
      if Js.geZero n then Success n
      else Failure [{| path := p; issue_message := Some msg |}]
  end.

(** [z.coerce.number().int().min(0, msg).optional().default(0)]: both
    checks report. *)
Definition coerceIntMin0Default0 (msg : string) (p : list seg) (v : FieldValue)
    : SafeParse Js.number :=
  match v with
  | FUndefined => Success (Js.Dec 0 0)
  | _ =>
      match coerce v with
      | Js.NaN => Failure [{| path := p; issue_message := None |}]
      | n =>
          let issues :=
            (if Js.isInteger n then [] else [{| path := p; issue_message := None |}]) ++
            (if Js.geZero n then [] else [{| path := p; issue_message := Some msg |}]) in
          match issues with
          | [] => Success n
          | _ => Failure issues
          end
      end
  end.

(** [z.enum(options).optional().default(d)], with the options read by [parse]. *)
Definition enumDefault {T} (parse : string -> option T) (d : T) (p : list seg)
    (v : option string) : SafeParse T :=
  match v with
  | None => Success d
  | Some s =>
      match parse s with
      | Some t => Success t
      | None => Failure [{| path := p; issue_message := None |}]
      end
  end.

(** The issues of [z.array(z.string().url(msg))] from index [i] on. *)
Fixpoint urlIssues (validUrl : string -> bool) (msg : string) (p : list seg)
    (i : nat) (l : list string) : list Issue :=
  match l with
  | [] => []
  | u :: l' =>
      (if validUrl u then [] else [{| path := p ++ [Index i]; issue_message := Some msg |}])
      ++ urlIssues validUrl msg p (S i) l'
  end.

(** [z.array(z.string().url(msg)).optional().default([])]. *)
Definition urlArrayDefault (validUrl : string -> bool) (msg : string) (p : list seg)
    (v : option (list string)) : SafeParse (list string) :=
  match v with
  | None => Success []
  | Some l =>
      match urlIssues validUrl msg p 0 l with
      | [] => Success l
      | issues => Failure issues
      end
  end.

End Zod.

(** ** The product form (products/components/ProductForm.tsx) *)

Module ProductForm.
Import Eff Api Zod.

Inductive Status := draft | active | archived | out_of_stock.

Definition statusString (s : Status) : string :=
  match s with
  | draft => "draft"
  | active => "active"
  | archived => "archived"
  | out_of_stock => "out_of_stock"
  end.

Definition parseStatus (s : string) : option Status :=
  if s =? "draft" then Some draft
  else if s =? "active" then Some active
  else if s =? "archived" then Some archived
  else if s =? "out_of_stock" then Some out_of_stock
  else None.

(** [ProductFormValues = z.infer<typeof productSchema>]. *)
Record ProductFormValues := {
  name : string;
  description : option string;
  price : Js.number;
  categoryId : string;
  brandId : option string;
  sku : option string;
  stock : Js.number;
  inStock : bool;
  status : Status;
  isFeatured : bool;
  images : list string
}.

(** The values the form holds before validation: text inputs hold strings,
    selects a string or [undefined]. *)
Record FormInput := {
  in_name : option string;
  in_description : option string;
  in_price : FieldValue;
  in_categoryId : option string;
  in_brandId : option string;
  in_sku : option string;
  in_stock : FieldValue;
  in_inStock : option bool;
  in_status : option string;
  in_isFeatured : option bool;
  in_images : option (list string)
}.

Section Schema.
(** The URL test of [z.string().url()]. *)
Variable validUrl : string -> bool.

Definition parseName (f : FormInput) : SafeParse string :=
  stringMin 2 "Name must be at least 2 characters." [Key "name"] (in_name f).
Definition parsePrice (f : FormInput) : SafeParse Js.number :=
  coerceNumberMin0 "Price must be a positive number." [Key "price"] (in_price f).
Definition parseCategoryId (f : FormInput) : SafeParse string :=
  stringMin 1 "Category is required." [Key "categoryId"] (in_categoryId f).
Definition parseStock (f : FormInput) : SafeParse Js.number :=
  coerceIntMin0Default0 "Stock must be a non-negative integer." [Key "stock"] (in_stock f).
Definition parseStatusField (f : FormInput) : SafeParse Status :=
  enumDefault parseStatus draft [Key "status"] (in_status f).
Definition parseImages (f : FormInput) : SafeParse (list string) :=
  urlArrayDefault validUrl "Each image must be a valid URL." [Key "images"] (in_images f).

(** All issues, in the order of the schema's keys; the optional strings
    and the defaulted booleans raise none. *)
Definition schemaIssues (f : FormInput) : list Issue :=
  issuesOf (parseName f) ++ issuesOf (parsePrice f) ++ issuesOf (parseCategoryId f) ++
  issuesOf (parseStock f) ++ issuesOf (parseStatusField f) ++ issuesOf (parseImages f).

(** The fields other than price, category and brand pass their validators
    (the optional strings and the booleans always do). *)
Definition restValid (f : FormInput) : bool :=
  isSuccess (parseName f) && isSuccess (parseStock f) &&
  isSuccess (parseStatusField f) && isSuccess (parseImages f).

(** [productSchema.safeParse(f)]. *)
Definition productSchema (f : FormInput) : SafeParse ProductFormValues :=
  match parseName f, parsePrice f, parseCategoryId f,
        parseStock f, parseStatusField f, parseImages f with
  | Success n, Success p, Success c, Success k, Success st, Success imgs =>
      Success {| name := n;
                 description := in_description f;
                 price := p;
                 categoryId := c;
                 brandId := in_brandId f;
                 sku := in_sku f;
                 stock := k;
                 inStock := default true (in_inStock f);
                 status := st;
                 isFeatured := default false (in_isFeatured f);
                 images := imgs |}
  | _, _, _, _, _, _ => Failure (schemaIssues f)
  end.
End Schema.

(** [defaultValues] of [useForm]. *)
Definition defaultValues (initialData : option Ecommerce.Product) : FormInput :=
  match initialData with
  | Some p =>
      {| in_name := Some (Ecommerce.name p);
         in_description := Ecommerce.description p;
         in_price := FNum (if Js.numberTruthy (Ecommerce.price p)
                           then Ecommerce.price p else Js.Dec 0 0);
         in_categoryId := Some (Ecommerce.categoryId p);
         in_brandId := if Js.truthy (Ecommerce.brandId p) then Ecommerce.brandId p else None;
         in_sku := Ecommerce.sku p;
         in_stock := FNum (if Js.numberTruthy (Ecommerce.stock p)
                           then Ecommerce.stock p else Js.Dec 0 0);
         in_inStock := Some (default true (Ecommerce.inStock p));
         in_status := Some (Js.orElse (Ecommerce.status p) "draft");
         in_isFeatured := Some (default false (Ecommerce.isFeatured p));
         in_images := Some (default [] (Ecommerce.images p)) |}
  | None =>
      {| in_name := Some ""; in_description := Some ""; in_price := FNum (Js.Dec 0 0);
         in_categoryId := Some ""; in_brandId := None; in_sku := Some "";
         in_stock := FNum (Js.Dec 0 0); in_inStock := Some true; in_status := Some "draft";
         in_isFeatured := Some false; in_images := Some [] |}
  end.

Definition NONE_BRAND_ID_VALUE : string := "_NONE_BRAND_ID_".

(** Typing into the name and price inputs: the field takes the input's text. *)
Definition changeName (text : string) (f : FormInput) : FormInput :=
  {| in_name := Some text; in_description := in_description f; in_price := in_price f;
     in_categoryId := in_categoryId f; in_brandId := in_brandId f; in_sku := in_sku f;
     in_stock := in_stock f; in_inStock := in_inStock f; in_status := in_status f;
     in_isFeatured := in_isFeatured f; in_images := in_images f |}.
Definition changePrice (text : string) (f : FormInput) : FormInput :=
  {| in_name := in_name f; in_description := in_description f; in_price := FStr text;
     in_categoryId := in_categoryId f; in_brandId := in_brandId f; in_sku := in_sku f;
     in_stock := in_stock f; in_inStock := in_inStock f; in_status := in_status f;
     in_isFeatured := in_isFeatured f; in_images := in_images f |}.
(** The category select's [onValueChange]. *)
Definition changeCategoryId (selectedValue : string) (f : FormInput) : FormInput :=
  {| in_name := in_name f; in_description := in_description f; in_price := in_price f;
     in_categoryId := Some selectedValue; in_brandId := in_brandId f; in_sku := in_sku f;
     in_stock := in_stock f; in_inStock := in_inStock f; in_status := in_status f;
     in_isFeatured := in_isFeatured f; in_images := in_images f |}.
(** The brand select's [onValueChange]: "None" clears the field. *)
Definition changeBrandId (selectedValue : string) (f : FormInput) : FormInput :=
  {| in_name := in_name f; in_description := in_description f; in_price := in_price f;
     in_categoryId := in_categoryId f;
     in_brandId := if selectedValue =? NONE_BRAND_ID_VALUE then None else Some selectedValue;
     in_sku := in_sku f;
     in_stock := in_stock f; in_inStock := in_inStock f; in_status := in_status f;
     in_isFeatured := in_isFeatured f; in_images := in_images f |}.

(** [{ ...productPayload, images }]. *)
Definition withImages (imgs : list string) (v : ProductFormValues) : ProductFormValues :=
  {| name := name v; description := description v; price := price v;
     categoryId := categoryId v; brandId := brandId v; sku := sku v; stock := stock v;
     inStock := inStock v; status := status v; isFeatured := isFeatured v;
     images := imgs |}.

(** The values [Object.entries(productPayload)] can yield. *)
Inductive JsValue :=
| VUndefined
| VString (s : string)
| VNumber (n : Js.number)
| VBoolean (b : bool)
| VArray (items : list string).

Definition optString (v : option string) : JsValue :=
  match v with
  | Some s => VString s
  | None => VUndefined
  end.

(** [Object.entries(productPayload)], in the order of the schema's keys.
    An optional field left [undefined] is listed with that value; the
    loop below skips it, as it would a missing key. *)
Definition entries (v : ProductFormValues) : list (string * JsValue) :=
  [ ("name", VString (name v));
    ("description", optString (description v));
    ("price", VNumber (price v));
    ("categoryId", VString (categoryId v));
    ("brandId", optString (brandId v));
    ("sku", optString (sku v));
    ("stock", VNumber (stock v));
    ("inStock", VBoolean (inStock v));
    ("status", VString (statusString (status v)));
    ("isFeatured", VBoolean (isFeatured v));
    ("images", VArray (images v)) ].

(** A selected file. *)
Record File := {
  file_name : string;
  file_size : Z
}.

(** The value of a [FormData] entry: text, the text [String(n)] of a
    number (kept as the number), or a file. *)
Inductive FormDataEntryValue :=
| FText (s : string)
| FNumberText (n : Js.number)
| FBlob (file : File).

(** [FormData]: the entries in the order they were appended. *)
Definition FormData : Type := list (string * FormDataEntryValue).

Definition append (formData : FormData) (key : string) (value : FormDataEntryValue) : FormData :=
  formData ++ [(key, value)].

(** The body of the [forEach] over the payload's entries. *)
Definition appendEntry (formData : FormData) (kv : string * JsValue) : FormData :=
  let '(key, value) := kv in
  if key =? "images" then formData
  else
    match value with
    | VUndefined => formData
    | VArray items => fold_left (fun fd item => append fd key (FText item)) items formData
    | VString s => append formData key (FText s)
    | VNumber n => append formData key (FNumberText n)
    | VBoolean b => append formData key (FText (if b then "true" else "false"))
    end.

(** The multipart body of the create branch. *)
Definition buildFormData (values : ProductFormValues) (files : list File) : FormData :=
  let formData := fold_left appendEntry (entries values) [] in
  fold_left (fun fd file => append fd "files" (FBlob file)) files formData.

(** [formData.getAll(key)]. *)
Definition getAll (key : string) (formData : FormData) : list FormDataEntryValue :=
  map snd (List.filter (fun kv => fst kv =? key) formData).

(** The part of the component's state that a submission reads or writes;
    [formValues] and [formErrors] are the values and field errors held by
    the form library. *)
Record State := {
  isLoading : bool;
  isUploading : bool;
  existingImageUrls : list string;
  newImageFiles : list File;
  formValues : FormInput;
  formErrors : list Issue
}.

Definition setIsLoading v (s : State) : State :=
  {| isLoading := v; isUploading := isUploading s;
     existingImageUrls := existingImageUrls s; newImageFiles := newImageFiles s;
     formValues := formValues s; formErrors := formErrors s |}.
Definition setIsUploading v (s : State) : State :=
  {| isLoading := isLoading s; isUploading := v;
     existingImageUrls := existingImageUrls s; newImageFiles := newImageFiles s;
     formValues := formValues s; formErrors := formErrors s |}.
Definition setFormErrors v (s : State) : State :=
  {| isLoading := isLoading s; isUploading := isUploading s;
     existingImageUrls := existingImageUrls s; newImageFiles := newImageFiles s;
     formValues := formValues s; formErrors := v |}.

Record UploadData := { urls : option (list string) }.

Record Backend := {
  uploadFiles : list File -> awaited (ApiResponse UploadData);
  updateProduct : string -> ProductFormValues -> awaited (ApiResponse unit);
  createProduct : FormData -> awaited (ApiResponse unit)
}.

Inductive Event :=
| EToast (t : Toast)
| EUploadFiles (files : list File)
| EUpdateProduct (productId : string) (payload : ProductFormValues)
| ECreateProduct (body : FormData)
| ERouterPush (href : string)
| ERouterRefresh.

Definition toast (ttl desc : string) (v : option Variant) : M State Event unit :=
  emit (EToast {| Api.title := ttl; Api.description := desc; Api.variant := v |}).

(** The update branch's upload step: the URLs of the newly added files. *)
Definition uploadNewFiles (api : Backend) (cur : State) : M State Event (list string) :=
  if (0 <? length (newImageFiles cur))%nat then
    emit (EUploadFiles (newImageFiles cur));;
    uploadResponse ← await (uploadFiles api (newImageFiles cur));
    match type uploadResponse, data uploadResponse ≫= urls with
    | OK, Some us => mret us
    | _, _ => throw (Some (Js.orElse (message uploadResponse) "Failed to upload new images."))
    end
  else mret [].

(** [onSubmit], for the render whose state is [cur]. *)
Definition onSubmit (initialData : option Ecommerce.Product) (api : Backend) (cur : State)
    (values : ProductFormValues) : M State Event unit :=
  modify (setIsLoading true);;
  tryCatchFinally
    (response ←
       match initialData with
       | Some p =>
           modify (setIsUploading (0 <? length (newImageFiles cur))%nat);;
           uploadedNewUrls ← uploadNewFiles api cur;
           modify (setIsUploading false);;
           let productPayload := withImages (existingImageUrls cur ++ uploadedNewUrls) values in
           emit (EUpdateProduct (Ecommerce.id p) productPayload);;
           await (updateProduct api (Ecommerce.id p) productPayload)
       | None =>
           let formData := buildFormData values (newImageFiles cur) in
           emit (ECreateProduct formData);;
           await (createProduct api formData)
       end;
     match type response with
     | OK =>
         toast "Success"
           ("Product " ++ match initialData with Some _ => "updated" | None => "created" end
               ++ " successfully.")%string
           None;;
         emit (ERouterPush "/products");;
         emit ERouterRefresh
     | ERROR =>
         toast "Error" (Js.orElse (message response) "An error occurred.") (Some Destructive)
     end)
    (fun error =>
       toast "Error" (Js.orElse error "An unexpected error occurred.") (Some Destructive))
    (modify (setIsLoading false);; modify (setIsUploading false)).

(** [form.handleSubmit(onSubmit)] with the schema as resolver: the handler
    runs on the parsed values, or the issues become the field errors and
    the handler is not called. *)
Definition handleSubmit (validUrl : string -> bool) (initialData : option Ecommerce.Product)
    (api : Backend) (cur : State) : M State Event unit :=
  match productSchema validUrl (formValues cur) with
  | Success values => modify (setFormErrors []);; onSubmit initialData api cur values
  | Failure issues => modify (setFormErrors issues)
  end.

(** Submitting already validated values in the render of state [s]. *)
Definition submitValues (initialData : option Ecommerce.Product) (api : Backend)
    (values : ProductFormValues) (s : State) : State * list Event :=
  run (onSubmit initialData api s values) s.

(** Pressing the submit button in the render of state [s]. *)
Definition submitForm (validUrl : string -> bool) (initialData : option Ecommerce.Product)
    (api : Backend) (s : State) : State * list Event :=
  run (handleSubmit validUrl initialData api s) s.

Definition isRequest (e : Event) : bool :=
  match e with
  | EUploadFiles _ | EUpdateProduct _ _ | ECreateProduct _ => true
  | _ => false
  end.

Definition isUpdateCall (e : Event) : bool :=
  match e with EUpdateProduct _ _ => true | _ => false end.

Definition isNavigation (e : Event) : bool :=
  match e with ERouterPush _ | ERouterRefresh => true | _ => false end.

(** Notions used to state the properties below. *)

(** The upload step of an update came out well: there was nothing to
    upload, or [uploadFiles] answered "OK" with the URLs [uploaded]. *)
Definition uploadSucceeds (api : Backend) (s : State) (uploaded : list string) : Prop :=
  match newImageFiles s with
  | [] => uploaded = []
  | _ :: _ =>
      exists r, uploadFiles api (newImageFiles s) = Fulfilled r /\
                type r = OK /\ data r ≫= urls = Some uploaded
  end.

Definition uploadFailed (r : ApiResponse UploadData) : Event :=
  EToast {| Api.title := "Error";
            Api.description := Js.orElse (message r) "Failed to upload new images.";
            Api.variant := Some Destructive |}.

Definition negativePrice : Issue :=
  {| path := [Key "price"]; issue_message := Some "Price must be a positive number." |}.

End ProductForm.


(** ** The edit-brand page (first document of brands/[id]/edit/page.tsx) *)

Module EditBrandPage.
Import Eff Api.

(** Modelled from the spec: [Brand] of types/ecommerce: id and name (the
    form-editable fields are not read by this page). *)
Record Brand := {
  id : string;
  name : string
}.

Record State := {
  brand : option Brand;
  isLoading : bool
}.

(** [useState(null)] and [useState(true)]. *)
Definition initialState : State := {| brand := None; isLoading := true |}.

Definition setBrand v (s : State) : State := {| brand := v; isLoading := isLoading s |}.
Definition setIsLoading v (s : State) : State := {| brand := brand s; isLoading := v |}.

Record BrandData := { data_brand : option Brand }.

Record Backend := {
  getBrandById : string -> awaited (ApiResponse BrandData)
}.

Inductive Event :=
| EToast (t : Toast)
| EGetBrandById (brandId : string).

Definition toast (ttl desc : string) (v : option Variant) : M State Event unit :=
  emit (EToast {| title := ttl; description := desc; variant := v |}).

(** [fetchBrand]. *)
Definition fetchBrand (api : Backend) (paramsId : string) : M State Event unit :=
  modify (setIsLoading true);;
  tryCatchFinally
    (emit (EGetBrandById paramsId);;
     response ← await (getBrandById api paramsId);
     match type response, data response ≫= data_brand with
     | OK, Some b => modify (setBrand (Some b))
     | _, _ =>
         toast "Error" (Js.orElse (message response) "Failed to fetch brand details.")
           (Some Destructive)
     end)
    (fun _ =>
       toast "Error" "An error occurred while fetching brand details." (Some Destructive))
    (modify (setIsLoading false)).

(** The effect on [params.id]: [if (params.id) fetchBrand()]. *)
Definition effect (api : Backend) (paramsId : string) : M State Event unit :=
  if Js.truthy (Some paramsId) then fetchBrand api paramsId else mret tt.

(** Mounting the page for [params.id]. *)
Definition mount (api : Backend) (paramsId : string) : State * list Event :=
  run (effect api paramsId) initialState.

(** What the page renders: the skeleton, the not-found header, or the form
    under its header. *)
Inductive View :=
| Skeleton
| BrandNotFound
| EditBrand (headerTitle headerDescription : string) (initialData : Brand).

Definition render (s : State) : View :=
  if isLoading s then Skeleton
  else
    match brand s with
    | None => BrandNotFound
    | Some b => EditBrand "Edit Brand" ("Updating brand: " ++ name b)%string b
    end.

(** The brand a response delivers, if it delivers one. *)
Definition delivered (r : awaited (ApiResponse BrandData)) : option Brand :=
  match r with
  | Fulfilled resp =>
      match type resp with
      | OK => data resp ≫= data_brand
      | ERROR => None
      end
  | Rejected _ => None
  end.

End EditBrandPage.

(** ** The daily-orders tab: what it renders *)

Module BrandDailyOrdersTabView.
Import Eff Api Stock BrandDailyOrdersTab.

(** [Object.values(rowSelection).filter(Boolean).length]. *)
Definition selectedRowCount (sel : gmap string bool) : nat :=
  length (List.filter (fun b : bool => b) (map snd (map_to_list sel))).

(** The submit button's [disabled]. *)
Definition submitDisabled (s : State) : bool :=
  isSubmitting s || (selectedRowCount (rowSelection s) =? 0)%nat.

(** The row checkbox's [disabled]. *)
Definition cellDisabled (softInventory : list SoftInventoryItem) (row : Row) : bool :=
  isInStock softInventory (original row).

(** The stock-status badge: its variant and its text. *)
Definition stockBadge (softInventory : list SoftInventoryItem) (row : Row) : Variant * string :=
  if isInStock softInventory (original row) then (Default, "In Stock")
  else (Destructive, "Out of Stock").

(** The header checkbox's [disabled]. *)
Definition headerDisabled (rows : list Row) (softInventory : list SoftInventoryItem) : bool :=
  negb (isOutOfStockHeader rows softInventory).

(** The rows of a table whose row ids are the order ids. *)
Definition rowsById (orders : list BrandDailyOrderItem) : list Row :=
  map (fun o => {| row_id := id o; original := o |}) orders.

(** Ticking the header checkbox in the render of state [s], for the rows [rows]. *)
Definition tickSelectAll (rows : list Row) (value : CheckedState) (s : State) : State :=
  setRowSelection (selectAllOnCheckedChange rows (softInventory s) value) s.

(** State and log after one [fetchData]. *)
Definition runFetchData (api : Backend) (p : Props) (s : State) : State * list Event :=
  run (fetchData api p) s.

Definition isErrorToast (e : Event) : bool :=
  match e with
  | EToast t => match variant t with Some Destructive => true | _ => false end
  | _ => false
  end.

End BrandDailyOrdersTabView.

(** ** The product form: images, selects and related data *)

Module ProductFormEdits.
Import Eff Api Zod ProductForm.

(** [prev.filter((_, i) => i !== index)], from position [i] on. *)
Fixpoint filterNotIndex {A} (index i : nat) (prev : list A) : list A :=
  match prev with
  | [] => []
  | x :: rest =>
      if (i =? index)%nat then filterNotIndex index (S i) rest
      else x :: filterNotIndex index (S i) rest
  end.

Definition setExistingImageUrls v (s : State) : State :=
  {| isLoading := isLoading s; isUploading := isUploading s;
     existingImageUrls := v; newImageFiles := newImageFiles s;
     formValues := formValues s; formErrors := formErrors s |}.
Definition setNewImageFiles v (s : State) : State :=
  {| isLoading := isLoading s; isUploading := isUploading s;
     existingImageUrls := existingImageUrls s; newImageFiles := v;
     formValues := formValues s; formErrors := formErrors s |}.

(** [handleFileChange]: [event.target.files], when there is one, replaces
    the selection. *)
Definition handleFileChange (files : option (list File)) (s : State) : State :=
  match files with
  | Some fs => setNewImageFiles fs s
  | None => s
  end.

(** [handleRemoveExistingImage]. *)
Definition handleRemoveExistingImage (index : nat) (s : State) : State :=
  setExistingImageUrls (filterNotIndex index 0 (existingImageUrls s)) s.

(** [handleRemoveNewImageFile]. *)
Definition handleRemoveNewImageFile (index : nat) (s : State) : State :=
  setNewImageFiles (filterNotIndex index 0 (newImageFiles s)) s.

(** The initial [existingImageUrls]: [initialData?.images || []]. *)
Definition initialExistingImageUrls (initialData : option Ecommerce.Product) : list string :=
  match initialData with
  | Some p => default [] (Ecommerce.images p)
  | None => []
  end.

(** The component's state on mount. *)
Definition initialState (initialData : option Ecommerce.Product) : State :=
  {| isLoading := false; isUploading := false;
     existingImageUrls := initialExistingImageUrls initialData; newImageFiles := [];
     formValues := defaultValues initialData; formErrors := [] |}.

(** The brand select's [value]. *)
Definition brandSelectValue (f : FormInput) : string :=
  match in_brandId f with
  | None => NONE_BRAND_ID_VALUE
  | Some v => v
  end.

End ProductFormEdits.

(** ** The product form: categories and brands for its selects *)

Module ProductFormRelated.
Import Eff Api.

(** Modelled from the spec: [Category] and [Brand] of types/ecommerce, as
    far as the selects read them: id and name. *)
Record Category := { category_id : string; category_name : string }.
Record Brand := { brand_id : string; brand_name : string }.

Record State := {
  isLoading : bool;
  categories : list Category;
  brands : list Brand
}.

Definition setIsLoading v (s : State) : State :=
  {| isLoading := v; categories := categories s; brands := brands s |}.
Definition setCategories v (s : State) : State :=
  {| isLoading := isLoading s; categories := v; brands := brands s |}.
Definition setBrands v (s : State) : State :=
  {| isLoading := isLoading s; categories := categories s; brands := v |}.

Record CategoriesData := { data_categories : option (list Category) }.
Record BrandsData := { data_brands : option (list Brand) }.

Record Backend := {
  fetchCategories : Z -> Z -> awaited (ApiResponse CategoriesData);
  fetchBrands : Z -> Z -> awaited (ApiResponse BrandsData)
}.

Inductive Event :=
| EToast (t : Toast)
| EFetchCategories (page limit : Z)
| EFetchBrands (page limit : Z).

Definition toast (ttl desc : string) (v : option Variant) : M State Event unit :=
  emit (EToast {| title := ttl; description := desc; variant := v |}).

(** [`${message}`] for an optional string: [undefined] prints as such. *)
Definition interpolate (v : option string) : string := default "undefined" v.

(** [loadRelatedData]. *)
Definition loadRelatedData (api : Backend) : M State Event unit :=
  modify (setIsLoading true);;
  tryCatchFinally
    (emit (EFetchCategories 1 100);;
     emit (EFetchBrands 1 100);;
     catResponse ← await (fetchCategories api 1 100);
     brandResponse ← await (fetchBrands api 1 100);
     (match type catResponse, data catResponse ≫= data_categories with
      | OK, Some cs => modify (setCategories cs)
      | _, _ =>
          toast "Error" ("Failed to load categories: " ++ interpolate (message catResponse))%string
            (Some Destructive)
      end);;
     (match type brandResponse, data brandResponse ≫= data_brands with
      | OK, Some bs => modify (setBrands bs)
      | _, _ =>
          toast "Error" ("Failed to load brands: " ++ interpolate (message brandResponse))%string
            (Some Destructive)
      end))
    (fun _ => toast "Error" "Failed to load related product data." (Some Destructive))
    (modify (setIsLoading false)).

Definition runLoadRelatedData (api : Backend) (s : State) : State * list Event :=
  run (loadRelatedData api) s.

Definition isErrorToast (e : Event) : bool :=
  match e with
  | EToast t => match variant t with Some Destructive => true | _ => false end
  | _ => false
  end.

End ProductFormRelated.

(** ** The customer page (customers/[id]/page.tsx) *)

Module CustomerDetailsPage.

(** Modelled from the spec: [User]: id, name, email, role, optional phone,
    optional address, createdAt. *)
Record User := {
  id : string;
  name : string;
  email : string;
  role : string;
  phone : option string;
  address : option string;
  createdAt : string
}.

(** What [useUser(customerId)] hands to the page: [data] (with
    [data.data.users]), [isLoading], and [error] (set or not). *)
Record UseUser := {
  users : option (list User);
  isLoading : bool;
  error : bool
}.

(** [String.prototype.toUpperCase], on the ASCII letters. *)
Definition upperAscii (c : ascii) : ascii :=
  let n := nat_of_ascii c in
  if (97 <=? n)%nat && (n <=? 122)%nat then ascii_of_nat (n - 32) else c.

(** [name.charAt(0).toUpperCase()]. *)
Definition avatarInitial (name : string) : string :=
  match name with
  | EmptyString => EmptyString
  | String c _ => String (upperAscii c) EmptyString
  end.

Inductive View :=
| Loading
| Failed (text : string)
| Profile (initial : string) (customer : User) (phoneRow addressRow : option string).

(** A row guarded by [value && (...)] shows for a non-empty value only. *)
Definition optionalRow (value : option string) : option string :=
  if Js.truthy value then value else None.

Definition render (q : UseUser) : View :=
  if isLoading q then Loading
  else
    match error q, users q ≫= head with
    | false, Some customer =>
        Profile (avatarInitial (name customer)) customer
          (optionalRow (phone customer)) (optionalRow (address customer))
    | e, _ =>
        Failed (if e then "Failed to load customer details. Please try again later."
                else "Customer not found.")
    end.

End CustomerDetailsPage.

(** ** Events by kind, for stating what a handler did *)

Module ProductsPageEvents.
Import Api ProductsPage.

Definition isDeleteCall (e : Event) : bool :=
  match e with EDeleteProduct _ => true | _ => false end.

Definition isErrorToast (e : Event) : bool :=
  match e with
  | EToast t => match variant t with Some Destructive => true | _ => false end
  | _ => false
  end.

End ProductsPageEvents.

Module ProductFormEvents.
Import Api ProductForm.

Definition isErrorToast (e : Event) : bool :=
  match e with
  | EToast t => match variant t with Some Destructive => true | _ => false end
  | _ => false
  end.

End ProductFormEvents.

(** * Example data *)

Module StockExamples.
Import Stock.

(** The snapshot of the worked example: the same line twice, sold out first. *)
Definition soldOutThenRestocked : list SoftInventoryItem :=
  [ {| si_sku := "A1"; si_size := "M"; si_color := None; si_quantity := 0 |};
    {| si_sku := "A1"; si_size := "M"; si_color := None; si_quantity := 5 |} ].

End StockExamples.

Module BrandDailyOrdersTabExamples.
Import Eff Api Stock BrandDailyOrdersTab.

(** A table of two rows: the first in stock, the second not. *)
Definition exampleInventory : list SoftInventoryItem :=
  [ {| si_sku := "A1"; si_size := "M"; si_color := Some "Red"; si_quantity := 3 |};
    {| si_sku := "B2"; si_size := "L"; si_color := None; si_quantity := 0 |} ].

Definition exampleOrder1 : BrandDailyOrderItem :=
  {| id := "o1"; sku := "A1"; color := Some "red"; size := "M"; quantity := 1 |}.
Definition exampleOrder2 : BrandDailyOrderItem :=
  {| id := "o2"; sku := "B2"; color := None; size := "L"; quantity := 2 |}.

Definition exampleRow0 : Row := {| row_id := "0"; original := exampleOrder1 |}.
Definition exampleRow1 : Row := {| row_id := "1"; original := exampleOrder2 |}.
Definition exampleRows : list Row := [exampleRow0; exampleRow1].

(** A backend that accepts everything. *)
Definition okResponse {D} (d : option D) : ApiResponse D :=
  {| type := OK; data := d; message := None; pagination := None |}.

Definition exampleApi : Backend :=
  {| getBrandDailyOrders := fun _ _ => Fulfilled (okResponse (Some {| orders := Some [] |}));
     getSoftInventoryItems := fun _ _ _ =>
       Fulfilled (okResponse (Some {| softInventoryItems := Some exampleInventory |}));
     submitBrandOrdersToPlaced := fun _ _ => Fulfilled (okResponse None) |}.

Definition exampleProps : Props :=
  {| brandId := "b1"; brandName := "Acme"; today := "2024-05-01" |}.

Definition exampleState (sel : gmap string bool) : State :=
  {| dailyOrders := [exampleOrder1; exampleOrder2]; softInventory := exampleInventory;
     isLoading := false; isSubmitting := false; rowSelection := sel |}.

End BrandDailyOrdersTabExamples.

Module ProductsPageExamples.
Import Eff Api ProductsPage.

(** A products page on its first page, and a server that answers "OK" with
    pagination data (5 pages) but without a product list. *)
Definition firstPage : State :=
  {| products := []; isLoading := false;
     pagination := {| pageIndex := 0; pageSize := 10; pageCount := 1 |};
     isConfirmDeleteDialogOpen := false; itemToDeleteId := None |}.

Definition fivePages : Api.Pagination :=
  {| totalPages := 5; page := 1; Api.pageSize := 10 |}.

Definition okWithoutProducts : ApiResponse ProductsData :=
  {| type := OK; data := None; message := None; Api.pagination := Some fivePages |}.

Definition okWithProducts : ApiResponse ProductsData :=
  {| type := OK; data := Some {| data_products := Some [] |}; message := None;
     Api.pagination := Some fivePages |}.

Definition serverAnswering (r : ApiResponse ProductsData) (del : awaited (ApiResponse unit))
    : Backend :=
  {| getProducts := fun _ _ => Fulfilled r; deleteProduct := fun _ => del |}.

Definition refused : ApiResponse unit :=
  {| type := ERROR; data := None; message := Some "Product is in use.";
     Api.pagination := None |}.

Definition deleting (productId : string) : State :=
  {| products := []; isLoading := false;
     pagination := {| pageIndex := 2; pageSize := 10; pageCount := 5 |};
     isConfirmDeleteDialogOpen := true; itemToDeleteId := Some productId |}.

End ProductsPageExamples.

Module ProductFormExamples.
Import Eff Api Zod ProductForm.

(** A mug being created, with two pictures chosen. *)
Definition mug : ProductFormValues :=
  {| name := "Mug"; description := Some "A mug."; price := Js.Dec 1999 2;
     categoryId := "c1"; brandId := None; sku := Some ""; stock := Js.Dec 0 0;
     inStock := true; status := draft; isFeatured := false; images := [] |}.

Definition front : File := {| file_name := "front.png"; file_size := 1024 |}.
Definition back : File := {| file_name := "back.png"; file_size := 2048 |}.

Definition mugInput : FormInput :=
  changePrice "19.99" (changeCategoryId "c1" (changeName "Mug" (defaultValues None))).

Definition formState (files : list File) (existing : list string) (f : FormInput) : State :=
  {| isLoading := false; isUploading := false; existingImageUrls := existing;
     newImageFiles := files; formValues := f; formErrors := [] |}.

Definition accepted {D} (d : option D) : ApiResponse D :=
  {| type := OK; data := d; message := None; pagination := None |}.

Definition rejectedUpload : ApiResponse UploadData :=
  {| type := ERROR; data := None; message := Some "File too large."; pagination := None |}.

Definition backendWith (upload : awaited (ApiResponse UploadData)) : Backend :=
  {| uploadFiles := fun _ => upload;
     updateProduct := fun _ _ => Fulfilled (accepted None);
     createProduct := fun _ => Fulfilled (accepted None) |}.

Definition mugProduct : Ecommerce.Product :=
  {| Ecommerce.id := "p7"; Ecommerce.name := "Mug"; Ecommerce.description := None;
     Ecommerce.price := Js.Dec 1999 2; Ecommerce.categoryId := "c1";
     Ecommerce.brandId := None; Ecommerce.sku := None; Ecommerce.stock := Js.Dec 3 0;
     Ecommerce.inStock := Some true; Ecommerce.status := Some "active";
     Ecommerce.isFeatured := None;
     Ecommerce.images := Some ["https://cdn/a.png"; "https://cdn/b.png"] |}.

Definition uploadedTwo : ApiResponse UploadData :=
  accepted (Some {| urls := Some ["https://cdn/front.png"; "https://cdn/back.png"] |}).

End ProductFormExamples.


Module BrandDailyOrdersTabMoreExamples.
Import Eff Api Stock BrandDailyOrdersTab BrandDailyOrdersTabExamples.

Definition unavailable {D} (text : string) : ApiResponse D :=
  {| type := ERROR; data := None; message := Some text; pagination := None |}.

(** The orders arrive, the soft inventory does not; submissions are refused. *)
Definition apiWithoutInventory : Backend :=
  {| getBrandDailyOrders := fun _ _ =>
       Fulfilled (okResponse (Some {| orders := Some [exampleOrder1; exampleOrder2] |}));
     getSoftInventoryItems := fun _ _ _ => Fulfilled (unavailable "Inventory is down.");
     submitBrandOrdersToPlaced := fun _ _ => Fulfilled (unavailable "Try again later.") |}.

(** Every call is rejected. *)
Definition apiOffline : Backend :=
  {| getBrandDailyOrders := fun _ _ => Rejected None;
     getSoftInventoryItems := fun _ _ _ => Rejected None;
     submitBrandOrdersToPlaced := fun _ _ => Rejected None |}.

End BrandDailyOrdersTabMoreExamples.


Module EditBrandPageExamples.
Import Eff Api EditBrandPage.

Definition acme : Brand := {| id := "b1"; name := "Acme" |}.

Definition brandFound : ApiResponse BrandData :=
  {| type := OK; data := Some {| data_brand := Some acme |}; message := None;
     pagination := None |}.

Definition brandMissing : ApiResponse BrandData :=
  {| type := ERROR; data := None; message := Some "Brand not found."; pagination := None |}.

Definition answering (r : awaited (ApiResponse BrandData)) : Backend :=
  {| getBrandById := fun _ => r |}.

End EditBrandPageExamples.


Module ProductsPageMoreExamples.
Import Eff Api ProductsPage.

Definition deletedOk : ApiResponse unit :=
  {| type := OK; data := None; message := None; Api.pagination := None |}.

End ProductsPageMoreExamples.


Module ProductFormRelatedExamples.
Import Eff Api ProductFormRelated.

Definition mugs : Category := {| category_id := "c1"; category_name := "Mugs" |}.

Definition categoriesOk : ApiResponse CategoriesData :=
  {| type := OK; data := Some {| data_categories := Some [mugs] |}; message := None;
     pagination := None |}.

Definition brandsFailed : ApiResponse BrandsData :=
  {| type := ERROR; data := None; message := None; pagination := None |}.

Definition relatedApi (c : awaited (ApiResponse CategoriesData))
    (b : awaited (ApiResponse BrandsData)) : Backend :=
  {| fetchCategories := fun _ _ => c; fetchBrands := fun _ _ => b |}.

Definition nothingLoaded : State := {| isLoading := false; categories := []; brands := [] |}.

End ProductFormRelatedExamples.

Module CustomerDetailsPageExamples.
Import CustomerDetailsPage.

Definition ada : User :=
  {| id := "u1"; name := "ada"; email := "ada@example.com"; role := "customer";
     phone := Some ""; address := Some "1 Main St"; createdAt := "2024-01-01" |}.

End CustomerDetailsPageExamples.


(** * Properties *)

(** ** Tactics *)

(** Runs the monadic operations of a handler whose branches are known. *)
Ltac eff_run :=
  cbv beta iota zeta delta
    [Eff.run mbind mret Eff.M_bind Eff.M_ret Eff.bind Eff.ret Eff.tryCatchFinally
     Eff.emit Eff.modify Eff.await Eff.throw fst snd option_bind];
  cbn [app].

(** Case analysis on an innermost scrutinee of the goal: the outcome of a
    backend call, or a field of its response. *)
Ltac case_inner :=
  match goal with
  | |- context [match ?x with _ => _ end] =>
      lazymatch x with
      | context [match _ with _ => _ end] => fail
      | _ => destruct x
      end
  end.

(** Splits a membership in an explicit log into its cases. *)
Ltac in_log H :=
  simpl in H; repeat (destruct H as [H | H]); try discriminate H; try contradiction.

(** ** Stock-status lookup *)

Module StockFacts.
Import Stock StockExamples.

Lemma lineMatches_spec sku size color si :
  lineMatches sku size color si = true <-> Matches sku size color si.
Proof.
  unfold lineMatches, Matches, Js.truthy.
  rewrite !andb_true_iff, !String.eqb_eq.
  split.
  - intros [[Hs Hz] Hc]. repeat split; try assumption.
    intros c -> Hne. destruct (String.eqb_spec c ""); [contradiction |].
    simpl in Hc. destruct (si_color si) as [c' |]; [| discriminate].
    exists c'. split; [reflexivity | now apply String.eqb_eq].
  - intros (Hs & Hz & Hc). repeat split; try assumption.
    destruct color as [c |]; [| reflexivity].
    destruct (String.eqb_spec c "") as [-> | Hne]; [reflexivity |].
    simpl. destruct (Hc c eq_refl Hne) as (c' & -> & He).
    now apply String.eqb_eq.
Qed.

Lemma lineMatches_false sku size color si :
  lineMatches sku size color si = false <-> ~ Matches sku size color si.
Proof.
  rewrite <- lineMatches_spec.
  destruct (lineMatches sku size color si); split; intros H;
    try reflexivity; try discriminate; try (exfalso; now apply H).
Qed.

(** [find] returns the first element that satisfies the predicate. *)
Lemma find_first {A} (p : A -> bool) (l : list A) (x : A) :
  find p l = Some x <->
  exists before after, l = before ++ x :: after /\
    (forall y, In y before -> p y = false) /\ p x = true.
Proof.
  induction l as [| a l IH]; simpl.
  - split; [discriminate |]. intros (b & t & H & _). now destruct b.
  - destruct (p a) eqn:Hpa.
    + split.
      * intros [= ->]. exists nil, l. repeat split; [| assumption]. intros y [].
      * intros (b & t & H & Hb & Hx). destruct b as [| b0 b]; simpl in H.
        -- now injection H as ->.
        -- injection H as -> _. rewrite (Hb b0) in Hpa; [discriminate | now left].
    + rewrite IH. split.
      * intros (b & t & -> & Hb & Hx). exists (a :: b), t. repeat split; [| assumption].
        intros y [<- | Hy]; [assumption | now apply Hb].
      * intros (b & t & H & Hb & Hx). destruct b as [| b0 b]; simpl in H.
        -- injection H as -> _. congruence.
        -- injection H as -> ->. exists b, t. repeat split; [| assumption].
           intros y Hy. apply Hb. now right.
Qed.

(** The lookup in terms of the list: the first match decides. *)
Lemma checkSoftStock_true_iff sku size color softInventory :
  checkSoftStock sku size color softInventory = true <->
  firstMatchInStock sku size color softInventory.
Proof.
  unfold checkSoftStock, firstMatchInStock. split.
  - destruct (find _ softInventory) as [item |] eqn:Hf; [| discriminate].
    intros Hq. apply find_first in Hf as (b & t & -> & Hb & Hm).
    exists b, item, t. split; [reflexivity |]. split; [| split].
    + intros x Hx. apply lineMatches_false. now apply Hb.
    + now apply lineMatches_spec.
    + apply Z.ltb_lt in Hq. lia.
  - intros (b & si & t & -> & Hb & Hm & Hq).
    assert (Hf : find (lineMatches sku size color) (b ++ si :: t) = Some si).
    { apply find_first. exists b, t. split; [reflexivity |]. split.
      - intros y Hy. apply lineMatches_false. now apply Hb.
      - now apply lineMatches_spec. }
    rewrite Hf. apply Z.ltb_lt. lia.
Qed.

Example checkSoftStock_soldOutThenRestocked :
  checkSoftStock "A1" "M" None soldOutThenRestocked = false.
Proof. reflexivity. Qed.

(** The specification's own example: quantity 0 for A1/M, no colour asked. *)
Example checkSoftStock_zero_quantity :
  checkSoftStock "A1" "M" None
    [ {| si_sku := "A1"; si_size := "M"; si_color := Some "Red"; si_quantity := 0 |} ] = false.
Proof. reflexivity. Qed.

Example checkSoftStock_case_insensitive :
  checkSoftStock "A1" "M" (Some "RED")
    [ {| si_sku := "A1"; si_size := "M"; si_color := Some "Blue"; si_quantity := 9 |};
      {| si_sku := "A1"; si_size := "M"; si_color := Some "rEd"; si_quantity := 2 |} ] = true.
Proof. reflexivity. Qed.



(** One half of the stated equivalence does hold: a line reported in stock
    has a matching entry with positive quantity. *)
Lemma checkSoftStock_sound sku size color softInventory :
  checkSoftStock sku size color softInventory = true ->
  inStockSomewhere sku size color softInventory.
Proof.
  intros H. apply checkSoftStock_true_iff in H as (b & si & t & -> & _ & Hm & Hq).
  exists si. split; [| now split]. apply in_or_app. right. now left.
Qed.

(** With no entry at all for the line, the answer is out of stock. *)
Lemma checkSoftStock_no_match sku size color softInventory :
  (forall si, In si softInventory -> ~ Matches sku size color si) ->
  checkSoftStock sku size color softInventory = false.
Proof.
  intros Hn. destruct (checkSoftStock sku size color softInventory) eqn:Hc; [| reflexivity].
  apply checkSoftStock_sound in Hc as (si & Hin & Hm & _). now destruct (Hn si Hin).
Qed.

End StockFacts.

(** ** The daily-orders tab *)

Module BrandDailyOrdersTabFacts.
Import Eff Api Stock BrandDailyOrdersTab BrandDailyOrdersTabExamples.

Lemma includes_In (l : list string) (x : string) :
  Js.includes l x = true <-> In x l.
Proof.
  unfold Js.includes. rewrite existsb_exists. split.
  - intros (y & Hy & He). apply String.eqb_eq in He. now subst.
  - intros H. exists x. split; [assumption | apply String.eqb_refl].
Qed.

(** Inserting [true] under each id of a list. *)
Lemma lookup_fold_insert (ids : list string) (m : gmap string bool) (k : string) :
  fold_left (fun sel i => <[i := true]> sel) ids m !! k =
  if Js.includes ids k then Some true else m !! k.
Proof.
  revert m. induction ids as [| i ids IH]; intros m; simpl; [reflexivity |].
  rewrite IH. destruct (String.eqb_spec k i) as [-> | Hne]; simpl.
  - destruct (Js.includes ids i); [reflexivity | apply lookup_insert_eq].
  - destruct (Js.includes ids k); [reflexivity |]. apply lookup_insert_ne. congruence.
Qed.

Lemma NoDup_map_eq {A B} (f : A -> B) (l : list A) (a b : A) :
  NoDup (map f l) -> In a l -> In b l -> f a = f b -> a = b.
Proof.
  induction l as [| x l IH]; simpl; [contradiction |].
  intros Hnd. apply NoDup_cons in Hnd as [Hx Hnd].
  rewrite list_elem_of_In in Hx.
  intros [-> | Ha] [-> | Hb] Heq; try reflexivity.
  - exfalso. apply Hx. rewrite Heq. now apply in_map.
  - exfalso. apply Hx. rewrite <- Heq. now apply in_map.
  - now apply IH.
Qed.

(** The ids the header checkbox selects. *)
Lemma selectAll_lookup rows inv value rid :
  selectAllOnCheckedChange rows inv value !! rid =
  if checkedTruthy value &&
     Js.includes (map row_id (List.filter (fun row => negb (isInStock inv (original row))) rows)) rid
  then Some true else None.
Proof.
  unfold selectAllOnCheckedChange. destruct (checkedTruthy value); simpl.
  - rewrite lookup_fold_insert. now destruct (Js.includes _ rid).
  - apply lookup_empty.
Qed.

(** Membership in [Object.keys(sel).filter(id => sel[id])]. *)
Lemma selectedOrderIds_In (sel : gmap string bool) (x : string) :
  In x (selectedOrderIds sel) <-> sel !! x = Some true.
Proof.
  unfold selectedOrderIds. rewrite filter_In, in_map_iff. split.
  - intros [((k & v) & <- & Hin) Hv]. simpl in *.
    apply list_elem_of_In, elem_of_map_to_list in Hin. rewrite Hin in *.
    simpl in Hv. now subst.
  - intros H. split.
    + exists (x, true). split; [reflexivity |]. now apply list_elem_of_In, elem_of_map_to_list.
    + now rewrite H.
Qed.

Lemma ordersToSubmit_In (s : State) (o : BrandDailyOrderItem) :
  In o (ordersToSubmit s) <-> In o (dailyOrders s) /\ rowSelection s !! id o = Some true.
Proof.
  unfold ordersToSubmit. rewrite filter_In, includes_In, selectedOrderIds_In. reflexivity.
Qed.

Lemma actualOutOfStockOrders_In (s : State) (o : BrandDailyOrderItem) :
  In o (actualOutOfStockOrders s) <->
  In o (dailyOrders s) /\ rowSelection s !! id o = Some true /\
  isInStock (softInventory s) o = false.
Proof.
  unfold actualOutOfStockOrders. rewrite filter_In, ordersToSubmit_In, negb_true_iff. tauto.
Qed.

Lemma length_zero_nil {A} (l : list A) : (length l =? 0)%nat = true <-> l = [].
Proof. destruct l; simpl; split; congruence. Qed.

(** C2: whatever the rows, the snapshot and the checkbox value, the selection
    set by the header checkbox holds only ids of rows that [checkSoftStock]
    reports out of stock (each with the value true); a row reported in stock is
    never selected (row ids being unique, as the table makes them); and
    unchecking the box gives the empty selection. *)
Theorem selectAll_only_out_of_stock rows softInventory value :
  let sel := selectAllOnCheckedChange rows softInventory value in
  (forall rid b, sel !! rid = Some b ->
     b = true /\
     exists row, In row rows /\ row_id row = rid /\
       checkSoftStock (sku (original row)) (size (original row)) (color (original row))
         softInventory = false) /\
  (NoDup (map row_id rows) ->
   forall row, In row rows ->
     checkSoftStock (sku (original row)) (size (original row)) (color (original row))
       softInventory = true ->
     sel !! row_id row = None) /\
  (value = Checked false -> sel = ∅).
Proof.
  cbv zeta. split; [| split].
  - intros rid b. rewrite selectAll_lookup.
    destruct (checkedTruthy value); simpl; [| discriminate].
    destruct (Js.includes _ rid) eqn:Hi; [| discriminate].
    intros [= <-]. split; [reflexivity |].
    apply includes_In, in_map_iff in Hi as (row & Hid & Hin).
    apply filter_In in Hin as [Hin Hs]. apply negb_true_iff in Hs.
    exists row. now repeat split.
  - intros Hnd row Hin Hs. rewrite selectAll_lookup.
    destruct (Js.includes _ (row_id row)) eqn:Hi; [| now rewrite andb_false_r].
    apply includes_In, in_map_iff in Hi as (row' & Hid & Hin').
    apply filter_In in Hin' as [Hin' Hs']. apply negb_true_iff in Hs'.
    assert (row' = row) as -> by (eapply NoDup_map_eq; eauto).
    unfold isInStock in Hs'. congruence.
  - intros ->. reflexivity.
Qed.

(** When the box is checked, every out-of-stock row is selected. *)
Lemma selectAll_selects_out_of_stock rows softInventory value row :
  checkedTruthy value = true -> In row rows ->
  isInStock softInventory (original row) = false ->
  selectAllOnCheckedChange rows softInventory value !! row_id row = Some true.
Proof.
  intros Hv Hin Hs. rewrite selectAll_lookup, Hv. simpl.
  replace (Js.includes _ (row_id row)) with true; [reflexivity |].
  symmetry. apply includes_In, in_map, filter_In. split; [assumption |].
  now rewrite Hs.
Qed.

Lemma selectAll_only_out_of_stock_witness :
  NoDup (map row_id exampleRows) /\
  selectAllOnCheckedChange exampleRows exampleInventory (Checked true) !! "0" = None /\
  selectAllOnCheckedChange exampleRows exampleInventory (Checked false) = ∅.
Proof.
  assert (Hnd : NoDup (map row_id exampleRows)).
  { simpl. apply NoDup_cons. split.
    - intros H. apply list_elem_of_In in H. simpl in H. destruct H as [H | []]. discriminate H.
    - apply NoDup_cons. split; [| apply NoDup_nil; exact I].
      intros H. apply list_elem_of_In in H. destruct H. }
  split; [exact Hnd |]. split.
  - exact (proj1 (proj2 (selectAll_only_out_of_stock exampleRows exampleInventory (Checked true)))
             Hnd exampleRow0 (or_introl eq_refl) eq_refl).
  - exact (proj2 (proj2 (selectAll_only_out_of_stock exampleRows exampleInventory (Checked false)))
             eq_refl).
Defined.

Ltac run_handler :=
  cbv delta [toast fetchData_start fetchData_resume]; eff_run.

(** The selected orders, without the detour through the list of keys. *)
Lemma ordersToSubmit_filter (s : State) :
  ordersToSubmit s =
  List.filter (fun o => bool_decide (rowSelection s !! id o = Some true)) (dailyOrders s).
Proof.
  unfold ordersToSubmit. apply filter_ext. intros o.
  destruct (Js.includes _ (id o)) eqn:Hi.
  - apply includes_In, selectedOrderIds_In in Hi. symmetry. now apply bool_decide_eq_true.
  - symmetry. apply bool_decide_eq_false. intros H.
    apply selectedOrderIds_In, includes_In in H. congruence.
Qed.

Lemma ordersToSubmit_nil (s : State) :
  ordersToSubmit s = [] <->
  forall o, In o (dailyOrders s) -> rowSelection s !! id o <> Some true.
Proof.
  split.
  - intros H o Hin Hsel.
    assert (Ho : In o (ordersToSubmit s)) by now apply ordersToSubmit_In.
    rewrite H in Ho. destruct Ho.
  - intros H. destruct (ordersToSubmit s) as [| o l] eqn:E; [reflexivity |].
    assert (Ho : In o (ordersToSubmit s)) by (rewrite E; now left).
    apply ordersToSubmit_In in Ho as [Hin Hsel]. now destruct (H o Hin).
Qed.

Lemma actualOutOfStockOrders_nil (s : State) :
  actualOutOfStockOrders s = [] <->
  forall o, In o (dailyOrders s) -> rowSelection s !! id o = Some true ->
    isInStock (softInventory s) o = true.
Proof.
  split.
  - intros H o Hin Hsel. destruct (isInStock (softInventory s) o) eqn:Hs; [reflexivity |].
    assert (Ho : In o (actualOutOfStockOrders s)) by now apply actualOutOfStockOrders_In.
    rewrite H in Ho. destruct Ho.
  - intros H. destruct (actualOutOfStockOrders s) as [| o l] eqn:E; [reflexivity |].
    assert (Ho : In o (actualOutOfStockOrders s)) by (rewrite E; now left).
    apply actualOutOfStockOrders_In in Ho as (Hin & Hsel & Hs).
    rewrite (H o Hin Hsel) in Hs. discriminate.
Qed.

(** C3: when no order of the current list has its id selected, the submit
    handler shows the "No Orders Selected" notice and returns; that notice is
    everything it emits, so [submitBrandOrdersToPlaced] is not called and no
    other request is made, and only the submitting flag was touched. *)
Theorem submit_nothing_selected api p s :
  (forall o, In o (dailyOrders s) -> rowSelection s !! id o <> Some true) ->
  clickSubmitSelected api p s =
    (setIsSubmitting false (setIsSubmitting true s), [noOrdersSelected]) /\
  List.filter isNetworkCall (snd (clickSubmitSelected api p s)) = [].
Proof.
  intros H. apply ordersToSubmit_nil in H.
  unfold clickSubmitSelected, handleSubmitSelected, handleSubmitSelected_body.
  rewrite H. split; reflexivity.
Qed.

Lemma submit_nothing_selected_witness :
  clickSubmitSelected exampleApi exampleProps (exampleState ∅) =
    (setIsSubmitting false (setIsSubmitting true (exampleState ∅)), [noOrdersSelected]) /\
  List.filter isNetworkCall (snd (clickSubmitSelected exampleApi exampleProps (exampleState ∅))) = [].
Proof.
  apply (submit_nothing_selected exampleApi exampleProps (exampleState ∅)).
  intros o _. simpl. rewrite lookup_empty. discriminate.
Defined.

(** Every submit call of the handler carries the re-checked orders. *)
Lemma submit_call_args api p s b ids :
  In (ESubmitBrandOrdersToPlaced b ids) (snd (clickSubmitSelected api p s)) ->
  b = brandId p /\ ids = map id (actualOutOfStockOrders s) /\ ids <> [].
Proof.
  unfold clickSubmitSelected, handleSubmitSelected, handleSubmitSelected_body.
  destruct (length (ordersToSubmit s) =? 0)%nat eqn:E1.
  { run_handler. intros H. in_log H. }
  destruct (length (actualOutOfStockOrders s) =? 0)%nat eqn:E2.
  { run_handler. intros H. in_log H. }
  assert (Hne : map id (actualOutOfStockOrders s) <> []).
  { destruct (actualOutOfStockOrders s); [discriminate E2 | discriminate]. }
  run_handler.
  repeat (case_inner; run_handler); intros Hlog; in_log Hlog; injection Hlog as <- <-; auto.
Qed.

(** The handler calls [submitBrandOrdersToPlaced] at most once. *)
Lemma submit_call_at_most_once api p s :
  (length (List.filter isSubmitCall (snd (clickSubmitSelected api p s))) <= 1)%nat.
Proof.
  unfold clickSubmitSelected, handleSubmitSelected, handleSubmitSelected_body.
  destruct (length (ordersToSubmit s) =? 0)%nat eqn:E1; [run_handler; simpl; lia |].
  destruct (length (actualOutOfStockOrders s) =? 0)%nat eqn:E2; [run_handler; simpl; lia |].
  run_handler.
  repeat (case_inner; run_handler); simpl; lia.
Qed.

(** C9: every call of [submitBrandOrdersToPlaced] made by the submit handler
    is for this brand, with a non-empty list of ids: the ids of the selected
    orders of the current list, less those the snapshot reports in stock; so
    each id sent is the id of a selected order for which [checkSoftStock] is
    false.  At most one call is made.  When some order is selected and every
    selected order is in stock, the handler clears the selection, shows the
    "No Out-of-Stock Orders" notice, and emits nothing else (no call). *)
Theorem submit_sends_only_out_of_stock api p s :
  let result := clickSubmitSelected api p s in
  (forall b ids, In (ESubmitBrandOrdersToPlaced b ids) (snd result) ->
     b = brandId p /\ ids <> [] /\
     ids = map id
             (List.filter
                (fun o => negb (checkSoftStock (sku o) (size o) (color o) (softInventory s)))
                (List.filter (fun o => bool_decide (rowSelection s !! id o = Some true))
                   (dailyOrders s))) /\
     forall i, In i ids ->
       exists o, In o (dailyOrders s) /\ id o = i /\ rowSelection s !! i = Some true /\
         checkSoftStock (sku o) (size o) (color o) (softInventory s) = false) /\
  (length (List.filter isSubmitCall (snd result)) <= 1)%nat /\
  ((exists o, In o (dailyOrders s) /\ rowSelection s !! id o = Some true) ->
   (forall o, In o (dailyOrders s) -> rowSelection s !! id o = Some true ->
      checkSoftStock (sku o) (size o) (color o) (softInventory s) = true) ->
   result = (setRowSelection ∅ (setIsSubmitting false (setIsSubmitting true s)),
             [noOutOfStockOrders])).
Proof.
  cbv zeta. split; [| split].
  - intros b ids Hin. apply submit_call_args in Hin as (-> & -> & Hne).
    split; [reflexivity |]. split; [assumption |]. split.
    + unfold actualOutOfStockOrders. now rewrite ordersToSubmit_filter.
    + intros i Hi. apply in_map_iff in Hi as (o & <- & Ho).
      apply actualOutOfStockOrders_In in Ho as (Hin & Hsel & Hs).
      exists o. now repeat split.
  - apply submit_call_at_most_once.
  - intros (o & Hin & Hsel) Hall.
    assert (H1 : ordersToSubmit s <> []).
    { intros H. rewrite ordersToSubmit_nil in H. now apply (H o Hin). }
    assert (H2 : actualOutOfStockOrders s = []) by now apply actualOutOfStockOrders_nil.
    unfold clickSubmitSelected, handleSubmitSelected, handleSubmitSelected_body.
    rewrite H2. destruct (ordersToSubmit s); [congruence |]. reflexivity.
Qed.

Lemma submit_sends_only_out_of_stock_witness :
  clickSubmitSelected exampleApi exampleProps (exampleState {[ "o1" := true ]}) =
    (setRowSelection ∅
       (setIsSubmitting false (setIsSubmitting true (exampleState {[ "o1" := true ]}))),
     [noOutOfStockOrders]).
Proof.
  refine (proj2 (proj2 (submit_sends_only_out_of_stock exampleApi exampleProps
                          (exampleState {[ "o1" := true ]}))) _ _).
  - exists exampleOrder1. split; [left; reflexivity | reflexivity].
  - intros o [<- | [<- | []]]; [reflexivity | intros H; discriminate H].
Defined.

(** Both orders selected: only the out-of-stock one is sent. *)
Example submit_both_selected :
  List.filter isSubmitCall
    (snd (clickSubmitSelected exampleApi exampleProps
            (exampleState {[ "o1" := true; "o2" := true ]}))) =
  [ESubmitBrandOrdersToPlaced "b1" ["o2"]].
Proof. vm_compute. reflexivity. Qed.

End BrandDailyOrdersTabFacts.

(** ** The products list page *)

Module ProductsPageFacts.
Import Eff Api ProductsPage ProductsPageExamples.

Ltac run_handler :=
  cbv delta [toast fetchData fetchData_start fetchData_resume]; eff_run.

(** No fetch moves the page index or the page size. *)
Lemma fetchData_frame api s :
  pageIndex (pagination (fst (runFetchData api s))) = pageIndex (pagination s) /\
  pageSize (pagination (fst (runFetchData api s))) = pageSize (pagination s).
Proof.
  unfold runFetchData. run_handler.
  repeat (case_inner; run_handler); split; reflexivity.
Qed.

(** A fetch that is answered with products and pagination data. *)
Lemma fetchData_success api s r ps pg :
  currentPage api s = Fulfilled r -> type r = OK ->
  data r ≫= data_products = Some ps -> Api.pagination r = Some pg ->
  runFetchData api s =
    (setIsLoading false
       (setPagination (withPageCount (totalPages pg)) (setProducts ps (setIsLoading true s))),
     [EGetProducts (pageIndex (pagination s) + 1) (pageSize (pagination s))]).
Proof.
  unfold currentPage, runFetchData. intros Hr Ht Hd Hp. run_handler.
  rewrite Hr. run_handler. rewrite Ht.
  change (match data r with Some x => data_products x | None => None end)
    with (data r ≫= data_products).
  rewrite Hd, Hp. reflexivity.
Qed.

(** A fetch that is not: the pagination state stays as it was. *)
Lemma fetchData_no_update api s :
  (forall r, currentPage api s = Fulfilled r ->
     type r = ERROR \/ data r ≫= data_products = None \/ Api.pagination r = None) ->
  pagination (fst (runFetchData api s)) = pagination s /\
  products (fst (runFetchData api s)) =
    match currentPage api s with
    | Fulfilled r =>
        match type r, data r ≫= data_products with
        | OK, Some ps => ps
        | _, _ => products s
        end
    | Rejected _ => products s
    end.
Proof.
  unfold currentPage, runFetchData. intros H. run_handler.
  destruct (getProducts api _ _) as [r | e]; run_handler; [| split; reflexivity].
  specialize (H r eq_refl). unfold mbind, option_bind in H.
  destruct (type r); run_handler; [| split; reflexivity].
  destruct (data r) as [d |]; run_handler; [| split; reflexivity].
  destruct (data_products d); run_handler; [| split; reflexivity].
  destruct (Api.pagination r); run_handler; [| split; reflexivity].
  destruct H as [H | [H | H]]; discriminate H.
Qed.

(** C8, as stated, fails: the response [okWithoutProducts] has type "OK" and carries
    pagination data with [totalPages = 5], but no product list; [fetchData]
    takes its error branch and the page count stays 1. *)
Lemma fetchData_ok_without_products_keeps_pageCount :
  currentPage (serverAnswering okWithoutProducts (Rejected None)) firstPage
    = Fulfilled okWithoutProducts /\
  type okWithoutProducts = OK /\
  Api.pagination okWithoutProducts = Some fivePages /\
  pageCount (pagination
    (fst (runFetchData (serverAnswering okWithoutProducts (Rejected None)) firstPage)))
    <> totalPages fivePages.
Proof. repeat split. intros H. discriminate H. Qed.

(** C8, amended: no fetch of the products list changes [pageIndex] or
    [pageSize]; after a response of type "OK" that carries a product list and
    pagination data, [pageCount] is overwritten with the server's
    [totalPages] and nothing else of the pagination state changes; after any
    other outcome (a rejected call, a type other than "OK", no product list,
    or no pagination data) the pagination state is left as it was. *)
Theorem fetchData_overwrites_only_pageCount api s :
  let s' := fst (runFetchData api s) in
  (pageIndex (pagination s') = pageIndex (pagination s) /\
   pageSize (pagination s') = pageSize (pagination s)) /\
  (forall r ps pg,
     currentPage api s = Fulfilled r -> type r = OK ->
     data r ≫= data_products = Some ps -> Api.pagination r = Some pg ->
     pagination s' =
       {| pageIndex := pageIndex (pagination s); pageSize := pageSize (pagination s);
          pageCount := totalPages pg |}) /\
  ((forall r, currentPage api s = Fulfilled r ->
      type r = ERROR \/ data r ≫= data_products = None \/ Api.pagination r = None) ->
   pagination s' = pagination s).
Proof.
  cbv zeta. split; [apply fetchData_frame | split].
  - intros r ps pg Hr Ht Hd Hp. now rewrite (fetchData_success api s r ps pg).
  - intros H. now apply fetchData_no_update.
Qed.

Lemma fetchData_overwrites_only_pageCount_witness :
  pagination (fst (runFetchData (serverAnswering okWithProducts (Rejected None)) firstPage)) =
    {| pageIndex := 0; pageSize := 10; pageCount := 5 |}.
Proof.
  exact (proj1 (proj2 (fetchData_overwrites_only_pageCount
                         (serverAnswering okWithProducts (Rejected None)) firstPage))
           okWithProducts [] fivePages eq_refl eq_refl eq_refl eq_refl).
Defined.

(** A delete that the server accepts. *)
Lemma confirmDelete_ok api s productId r :
  itemToDeleteId s = Some productId -> productId <> "" ->
  deleteProduct api productId = Fulfilled r -> type r = OK ->
  exists rest,
    snd (confirmDelete api s) =
      EDeleteProduct productId :: deleted ::
      EGetProducts (pageIndex (pagination s) + 1) (pageSize (pagination s)) :: rest.
Proof.
  intros Hid Hne Hr Ht. unfold confirmDelete, handleConfirmDelete, handleConfirmDelete_body.
  rewrite Hid. unfold Js.truthy. destruct (String.eqb_spec productId ""); [contradiction |].
  cbn [negb]. run_handler. rewrite Hr. run_handler. rewrite Ht. run_handler.
  repeat (case_inner; run_handler); eexists; reflexivity.
Qed.

(** A delete that the server refuses, or that fails on the way. *)
Lemma confirmDelete_failed api s productId :
  itemToDeleteId s = Some productId -> productId <> "" ->
  (exists r, deleteProduct api productId = Fulfilled r /\ type r = ERROR) \/
  (exists e, deleteProduct api productId = Rejected e) ->
  exists t,
    confirmDelete api s =
      (setItemToDeleteId None
         (setIsConfirmDeleteDialogOpen false (setIsLoading false (setIsLoading true s))),
       [EDeleteProduct productId; EToast t]) /\
    variant t = Some Destructive.
Proof.
  intros Hid Hne H. unfold confirmDelete, handleConfirmDelete, handleConfirmDelete_body.
  rewrite Hid. unfold Js.truthy. destruct (String.eqb_spec productId ""); [contradiction |].
  cbn [negb]. run_handler.
  destruct H as [(r & Hr & Ht) | (e & He)].
  - rewrite Hr. run_handler. rewrite Ht. run_handler. eexists. split; reflexivity.
  - rewrite He. run_handler. eexists. split; reflexivity.
Qed.

(** C6: for a confirmed delete of a product: if the response has type "OK",
    the handler, after the delete call and its success notice, requests the
    current page again; if the response has another type, or the call throws,
    it shows an error notification, makes no further request, and leaves the
    product rows and the pagination state as they were. *)
Theorem confirmDelete_refetches_or_reports api s productId :
  itemToDeleteId s = Some productId -> productId <> "" ->
  let result := confirmDelete api s in
  (forall r, deleteProduct api productId = Fulfilled r -> type r = OK ->
     exists rest,
       snd result =
         EDeleteProduct productId :: deleted ::
         EGetProducts (pageIndex (pagination s) + 1) (pageSize (pagination s)) :: rest) /\
  ((exists r, deleteProduct api productId = Fulfilled r /\ type r = ERROR) \/
   (exists e, deleteProduct api productId = Rejected e) ->
   products (fst result) = products s /\
   pagination (fst result) = pagination s /\
   exists t, snd result = [EDeleteProduct productId; EToast t] /\
             variant t = Some Destructive).
Proof.
  intros Hid Hne. cbv zeta. split.
  - intros r Hr Ht. now apply confirmDelete_ok with (r := r).
  - intros H. destruct (confirmDelete_failed api s productId Hid Hne H) as (t & -> & Hv).
    repeat split. now exists t.
Qed.

Lemma confirmDelete_refetches_or_reports_witness :
  pagination (fst (confirmDelete (serverAnswering okWithProducts (Fulfilled refused))
                     (deleting "p7"))) =
    {| pageIndex := 2; pageSize := 10; pageCount := 5 |}.
Proof.
  refine (proj1 (proj2 (proj2 (confirmDelete_refetches_or_reports
            (serverAnswering okWithProducts (Fulfilled refused)) (deleting "p7") "p7"
            eq_refl _) _))).
  - intros H. discriminate H.
  - left. exists refused. split; reflexivity.
Defined.

Example confirmDelete_refused_log :
  snd (confirmDelete (serverAnswering okWithProducts (Fulfilled refused)) (deleting "p7")) =
  [EDeleteProduct "p7";
   EToast {| Api.title := "Error"; Api.description := "Product is in use.";
             Api.variant := Some Destructive |}].
Proof. reflexivity. Qed.

(** With no product chosen the handler does nothing at all. *)
Lemma confirmDelete_nothing_chosen api s :
  Js.truthy (itemToDeleteId s) = false -> confirmDelete api s = (s, []).
Proof.
  unfold confirmDelete, handleConfirmDelete, handleConfirmDelete_body.
  destruct (itemToDeleteId s) as [i |]; [| reflexivity].
  intros ->. reflexivity.
Qed.

End ProductsPageFacts.

(** ** The product form *)

Module ProductFormFacts.
Import Eff Api Zod ProductForm ProductFormExamples.

Ltac run_handler :=
  cbv delta [toast uploadNewFiles]; eff_run.

(** *** The multipart body *)

Lemma getAll_app key (a b : FormData) : getAll key (a ++ b) = getAll key a ++ getAll key b.
Proof. unfold getAll. now rewrite List.filter_app, List.map_app. Qed.

Lemma fold_append_files (files : list File) (fd : FormData) :
  fold_left (fun fd file => append fd "files" (FBlob file)) files fd =
  fd ++ map (fun file => ("files", FBlob file)) files.
Proof.
  revert fd. induction files as [| f files IH]; intros fd; simpl.
  - now rewrite app_nil_r.
  - rewrite IH. unfold append. now rewrite <- app_assoc.
Qed.

Lemma getAll_files_only (files : list File) (key : string) :
  getAll key (map (fun file => ("files", FBlob file)) files) =
  if key =? "files" then map FBlob files else [].
Proof.
  unfold getAll. destruct (String.eqb_spec key "files") as [-> | Hne].
  - induction files as [| f files IH]; [reflexivity |].
    cbn [map List.filter fst snd]. rewrite String.eqb_refl. cbn [map snd]. now f_equal.
  - induction files as [| f files IH]; [reflexivity |].
    cbn [map List.filter fst snd].
    destruct (String.eqb_spec "files" key) as [E | _]; [now destruct Hne | assumption].
Qed.

(** The scalar part of the body has no entry called "files" or "images". *)
Lemma getAll_scalars values :
  getAll "files" (fold_left appendEntry (entries values) []) = [] /\
  getAll "images" (fold_left appendEntry (entries values) []) = [].
Proof.
  unfold entries, optString.
  destruct (description values), (brandId values), (sku values); split; reflexivity.
Qed.

(** A brand left unset leaves no "brandId" entry; a chosen brand leaves one. *)
Lemma getAll_brandId values files :
  getAll "brandId" (buildFormData values files) =
  match brandId values with
  | Some b => [FText b]
  | None => []
  end.
Proof.
  unfold buildFormData. rewrite fold_append_files, getAll_app, getAll_files_only.
  cbn [String.eqb Ascii.eqb Bool.eqb]. rewrite app_nil_r.
  unfold entries, optString.
  destruct (description values), (brandId values), (sku values); reflexivity.
Qed.

(** The files of the body are the selected files, in order; no "images". *)
Lemma getAll_buildFormData values files :
  getAll "files" (buildFormData values files) = map FBlob files /\
  getAll "images" (buildFormData values files) = [].
Proof.
  unfold buildFormData. rewrite fold_append_files, !getAll_app, !getAll_files_only.
  destruct (getAll_scalars values) as [-> ->]. split; reflexivity.
Qed.

(** The create branch makes one request: [createProduct] with that body. *)
Lemma create_requests api s values :
  List.filter isRequest (snd (submitValues None api values s)) =
  [ECreateProduct (buildFormData values (newImageFiles s))].
Proof.
  unfold submitValues, onSubmit. run_handler.
  repeat (case_inner; run_handler); reflexivity.
Qed.

(** C4: a create submission (no initial data) with two newly selected files
    and no existing image makes one request, [createProduct], whose multipart
    body has exactly two entries under "files", the two files in order, and
    no entry under "images". *)
Theorem create_two_files_no_images api s values :
  length (newImageFiles s) = 2%nat -> existingImageUrls s = [] ->
  exists body,
    List.filter isRequest (snd (submitValues None api values s)) = [ECreateProduct body] /\
    length (getAll "files" body) = 2%nat /\
    getAll "files" body = map FBlob (newImageFiles s) /\
    getAll "images" body = [].
Proof.
  intros Hlen _. exists (buildFormData values (newImageFiles s)).
  destruct (getAll_buildFormData values (newImageFiles s)) as [Hf Hi].
  split; [apply create_requests |]. rewrite Hf, Hi, length_map. now repeat split.
Qed.

Lemma create_two_files_no_images_witness :
  exists body,
    List.filter isRequest
      (snd (submitValues None (backendWith (Rejected None)) mug
              (formState [front; back] [] mugInput))) = [ECreateProduct body] /\
    length (getAll "files" body) = 2%nat /\
    getAll "files" body = [FBlob front; FBlob back] /\
    getAll "images" body = [].
Proof.
  exact (create_two_files_no_images (backendWith (Rejected None))
           (formState [front; back] [] mugInput) mug eq_refl eq_refl).
Defined.

Example create_body_of_mug :
  buildFormData mug [front; back] =
  [ ("name", FText "Mug"); ("description", FText "A mug.");
    ("price", FNumberText (Js.Dec 1999 2)); ("categoryId", FText "c1");
    ("sku", FText ""); ("stock", FNumberText (Js.Dec 0 0)); ("inStock", FText "true");
    ("status", FText "draft"); ("isFeatured", FText "false");
    ("files", FBlob front); ("files", FBlob back) ].
Proof. reflexivity. Qed.

(** *** The update branch *)

Lemma update_requests api s p values uploaded :
  uploadSucceeds api s uploaded ->
  List.filter isUpdateCall (snd (submitValues (Some p) api values s)) =
  [EUpdateProduct (Ecommerce.id p) (withImages (existingImageUrls s ++ uploaded) values)].
Proof.
  unfold uploadSucceeds, submitValues, onSubmit. run_handler.
  destruct (newImageFiles s) as [| f files].
  - intros ->. cbn [length Nat.ltb Nat.leb]. run_handler.
    repeat (case_inner; run_handler); reflexivity.
  - intros (r & Hr & Ht & Hd). cbn [length Nat.ltb Nat.leb]. run_handler.
    rewrite Hr. run_handler. rewrite Ht, Hd. run_handler.
    repeat (case_inner; run_handler); reflexivity.
Qed.

(** C5: in an update submission whose upload step succeeds, exactly one
    [updateProduct] call is made, for the edited product, and its images list
    is the retained existing URLs in their order followed by the uploaded URLs
    in the order the upload returned them; the other fields are the form's. *)
Theorem update_images_existing_then_uploaded api s p values uploaded :
  uploadSucceeds api s uploaded ->
  exists payload,
    List.filter isUpdateCall (snd (submitValues (Some p) api values s)) =
      [EUpdateProduct (Ecommerce.id p) payload] /\
    images payload = existingImageUrls s ++ uploaded /\
    payload = withImages (images payload) values.
Proof.
  intros H. exists (withImages (existingImageUrls s ++ uploaded) values).
  split; [now apply update_requests | split; reflexivity].
Qed.

Lemma update_images_existing_then_uploaded_witness :
  exists payload,
    List.filter isUpdateCall
      (snd (submitValues (Some mugProduct) (backendWith (Fulfilled uploadedTwo)) mug
              (formState [front; back] ["https://cdn/b.png"; "https://cdn/a.png"] mugInput))) =
      [EUpdateProduct "p7" payload] /\
    images payload =
      ["https://cdn/b.png"; "https://cdn/a.png"] ++
      ["https://cdn/front.png"; "https://cdn/back.png"] /\
    payload = withImages (images payload) mug.
Proof.
  apply (update_images_existing_then_uploaded (backendWith (Fulfilled uploadedTwo))
           (formState [front; back] ["https://cdn/b.png"; "https://cdn/a.png"] mugInput)
           mugProduct mug ["https://cdn/front.png"; "https://cdn/back.png"]).
  exists uploadedTwo. repeat split.
Defined.

(** The message of the error thrown for a failed upload reaches the toast. *)
Lemma orElse_thrown (m : option string) (fallback other : string) :
  fallback <> "" ->
  Js.orElse (Some (Js.orElse m fallback)) other = Js.orElse m fallback.
Proof.
  intros Hne. unfold Js.orElse at 1. unfold Js.truthy.
  destruct (String.eqb_spec (Js.orElse m fallback) "") as [E | _]; [| reflexivity].
  exfalso. revert E. unfold Js.orElse, Js.truthy. destruct m as [x |]; [| assumption].
  destruct (String.eqb_spec x ""); simpl; assumption.
Qed.

(** C10: in an update submission with at least one new file, if
    [uploadFiles] answers with a type other than "OK" or without URLs, the
    handler throws before [updateProduct]: after the upload call it only
    shows the error notification, so no update request is sent and nothing
    navigates away; the form's values, the chosen files and the retained
    images are as before, and both busy flags are down again. *)
Theorem update_upload_failure_sends_no_update api s p values r :
  newImageFiles s <> [] ->
  uploadFiles api (newImageFiles s) = Fulfilled r ->
  type r <> OK \/ data r ≫= urls = None ->
  let result := submitValues (Some p) api values s in
  snd result = [EUploadFiles (newImageFiles s); uploadFailed r] /\
  List.filter isUpdateCall (snd result) = [] /\
  List.filter isNavigation (snd result) = [] /\
  formValues (fst result) = formValues s /\
  newImageFiles (fst result) = newImageFiles s /\
  existingImageUrls (fst result) = existingImageUrls s /\
  isLoading (fst result) = false /\ isUploading (fst result) = false.
Proof.
  intros Hne Hr Hfail. cbv zeta.
  assert (Hrun : submitValues (Some p) api values s =
                 (setIsUploading false (setIsLoading false
                    (setIsUploading true (setIsLoading true s))),
                  [EUploadFiles (newImageFiles s); uploadFailed r])).
  { unfold submitValues, onSubmit, uploadFailed. run_handler.
    destruct (newImageFiles s) as [| f files] eqn:Hfiles; [congruence |].
    cbn [length Nat.ltb Nat.leb]. run_handler. rewrite Hr. run_handler.
    destruct Hfail as [Ht | Hd].
    - destruct (type r); [congruence |]. run_handler.
      now rewrite orElse_thrown by discriminate.
    - unfold mbind, option_bind in Hd. rewrite Hd.
      destruct (type r); run_handler; now rewrite orElse_thrown by discriminate. }
  rewrite Hrun. repeat split.
Qed.

Lemma update_upload_failure_sends_no_update_witness :
  snd (submitValues (Some mugProduct) (backendWith (Fulfilled rejectedUpload)) mug
         (formState [front; back] ["https://cdn/a.png"] mugInput)) =
  [EUploadFiles [front; back];
   EToast {| Api.title := "Error"; Api.description := "File too large.";
             Api.variant := Some Destructive |}].
Proof.
  refine (proj1 (update_upload_failure_sends_no_update
            (backendWith (Fulfilled rejectedUpload))
            (formState [front; back] ["https://cdn/a.png"] mugInput)
            mugProduct mug rejectedUpload _ eq_refl _)).
  - intros H. discriminate H.
  - left. intros H. discriminate H.
Defined.

(** A rejected upload call ends the same way. *)
Lemma update_upload_rejected api s p values e :
  newImageFiles s <> [] ->
  uploadFiles api (newImageFiles s) = Rejected e ->
  List.filter isUpdateCall (snd (submitValues (Some p) api values s)) = [].
Proof.
  intros Hne Hr. unfold submitValues, onSubmit. run_handler.
  destruct (newImageFiles s) as [| f files] eqn:Hfiles; [congruence |].
  cbn [length Nat.ltb Nat.leb]. run_handler. rewrite Hr. run_handler. reflexivity.
Qed.

(** *** Validation *)

Example Number_minus_five : Js.Number "-5" = Js.Dec (-5) 0.
Proof. reflexivity. Qed.

Example Number_19_99 : Js.Number "19.99" = Js.Dec 1999 2.
Proof. reflexivity. Qed.

Lemma parsePrice_minus_five f :
  in_price f = FStr "-5" -> parsePrice f = Failure [negativePrice].
Proof. unfold parsePrice. intros ->. reflexivity. Qed.

Lemma parsePrice_19_99 f :
  in_price f = FStr "19.99" -> parsePrice f = Success (Js.Dec 1999 2).
Proof. unfold parsePrice. intros ->. reflexivity. Qed.

Lemma parseCategoryId_selected f c :
  in_categoryId f = Some c -> c <> "" -> parseCategoryId f = Success c.
Proof.
  unfold parseCategoryId, stringMin. intros -> Hne.
  destruct c; [contradiction | reflexivity].
Qed.

(** A field that fails makes the schema fail, with all the issues found. *)
Lemma productSchema_price_fails validUrl f issues :
  parsePrice f = Failure issues ->
  productSchema validUrl f = Failure (schemaIssues validUrl f).
Proof.
  unfold productSchema. intros ->.
  destruct (parseName f); reflexivity.
Qed.

(** A form that does not validate is not submitted: the issues become the
    field errors and nothing is emitted. *)
Lemma submitForm_blocked validUrl initialData api s issues :
  productSchema validUrl (formValues s) = Failure issues ->
  submitForm validUrl initialData api s = (setFormErrors issues s, []).
Proof. unfold submitForm, handleSubmit. intros ->. reflexivity. Qed.

(** A new product whose form validates is submitted with the parsed values. *)
Lemma submitForm_valid validUrl api s values :
  productSchema validUrl (formValues s) = Success values ->
  List.filter isRequest (snd (submitForm validUrl None api s)) =
  [ECreateProduct (buildFormData values (newImageFiles s))].
Proof.
  unfold submitForm, handleSubmit, onSubmit. intros ->.
  run_handler. repeat (case_inner; run_handler); reflexivity.
Qed.

(** C7: a form whose price input reads "-5" fails validation, with the
    schema's message on the price field, and pressing submit then only
    records the field errors: nothing is sent.  A form whose price input
    reads "19.99", with a category chosen, no brand chosen and its remaining
    fields valid, passes validation with price 19.99 and [brandId] undefined;
    submitted as a new product it makes the one [createProduct] request, whose
    multipart body has no "brandId" entry at all. *)
Theorem price_and_brand_validation validUrl f :
  (in_price f = FStr "-5" ->
   productSchema validUrl f = Failure (schemaIssues validUrl f) /\
   In negativePrice (schemaIssues validUrl f) /\
   forall initialData api s, formValues s = f ->
     submitForm validUrl initialData api s = (setFormErrors (schemaIssues validUrl f) s, [])) /\
  (in_price f = FStr "19.99" ->
   (exists c, in_categoryId f = Some c /\ c <> "") ->
   in_brandId f = None ->
   restValid validUrl f = true ->
   exists values,
     productSchema validUrl f = Success values /\
     price values = Js.Dec 1999 2 /\
     brandId values = None /\
     (forall files, getAll "brandId" (buildFormData values files) = []) /\
     (forall imgs, brandId (withImages imgs values) = None) /\
     forall api s, formValues s = f ->
       List.filter isRequest (snd (submitForm validUrl None api s)) =
       [ECreateProduct (buildFormData values (newImageFiles s))]).
Proof.
  split.
  - intros Hp. pose proof (parsePrice_minus_five f Hp) as Hprice.
    pose proof (productSchema_price_fails validUrl f _ Hprice) as Hfail.
    split; [assumption | split].
    + unfold schemaIssues. rewrite Hprice. apply in_or_app. right. now left.
    + intros initialData api s <-. now apply submitForm_blocked.
  - intros Hp (c & Hc & Hne) Hb Hrest.
    pose proof (parsePrice_19_99 f Hp) as Hprice.
    pose proof (parseCategoryId_selected f c Hc Hne) as Hcat.
    unfold restValid in Hrest. rewrite !andb_true_iff in Hrest.
    destruct Hrest as [[[Hn Hk] Hst] Hi].
    destruct (parseName f) as [n |] eqn:En; [| discriminate].
    destruct (parseStock f) as [k |] eqn:Ek; [| discriminate].
    destruct (parseStatusField f) as [st |] eqn:Est; [| discriminate].
    destruct (parseImages validUrl f) as [imgs |] eqn:Ei; [| discriminate].
    assert (Hs : productSchema validUrl f =
                 Success {| name := n; description := in_description f;
                            price := Js.Dec 1999 2; categoryId := c;
                            brandId := in_brandId f; sku := in_sku f; stock := k;
                            inStock := default true (in_inStock f); status := st;
                            isFeatured := default false (in_isFeatured f);
                            images := imgs |}).
    { unfold productSchema. now rewrite En, Hprice, Hcat, Ek, Est, Ei. }
    eexists. split; [exact Hs |]. cbn [price brandId withImages].
    split; [reflexivity |]. split; [assumption |]. split; [| split].
    + intros files. rewrite getAll_brandId. cbn [brandId]. now rewrite Hb.
    + intros _. assumption.
    + intros api s <-. now apply submitForm_valid.
Qed.

Lemma price_and_brand_validation_witness :
  (exists issues,
     productSchema (fun _ => true) (changePrice "-5" mugInput) = Failure issues /\
     In negativePrice issues) /\
  (exists values,
     productSchema (fun _ => true) mugInput = Success values /\
     brandId values = None /\
     getAll "brandId" (buildFormData values [front]) = []).
Proof.
  split.
  - destruct (proj1 (price_and_brand_validation (fun _ => true) (changePrice "-5" mugInput))
                eq_refl) as (Hf & Hin & _).
    eexists. split; [exact Hf | exact Hin].
  - assert (Hprice : in_price mugInput = FStr "19.99") by reflexivity.
    assert (Hcat : exists c, in_categoryId mugInput = Some c /\ c <> "").
    { exists "c1". split; [reflexivity | discriminate]. }
    assert (Hbrand : in_brandId mugInput = None) by reflexivity.
    assert (Hrest : restValid (fun _ => true) mugInput = true) by (vm_compute; reflexivity).
    destruct (proj2 (price_and_brand_validation (fun _ => true) mugInput)
                Hprice Hcat Hbrand Hrest) as (values & Hs & _ & Hb & Hg & _).
    exists values. split; [exact Hs | split; [exact Hb | apply Hg]].
Defined.

Example productSchema_default_form_rejected :
  productSchema (fun _ => true) (defaultValues None) =
  Failure [ {| path := [Key "name"];
               issue_message := Some "Name must be at least 2 characters." |};
            {| path := [Key "categoryId"]; issue_message := Some "Category is required." |} ].
Proof. reflexivity. Qed.

Example productSchema_mug :
  productSchema (fun _ => true) mugInput =
  Success {| name := "Mug"; description := Some ""; price := Js.Dec 1999 2;
             categoryId := "c1"; brandId := None; sku := Some ""; stock := Js.Dec 0 0;
             inStock := true; status := draft; isFeatured := false; images := [] |}.
Proof. reflexivity. Qed.

End ProductFormFacts.


(** * Further properties of the code *)

(** ** Stock-status lookup *)

Module StockLaws.
Import Stock StockExamples StockFacts.

(** [toLowerCase] keeps the empty string, and only the empty string, empty. *)
Lemma toLowerCase_empty (s : string) : Js.toLowerCase s = "" <-> s = "".
Proof. destruct s; simpl; split; congruence. Qed.

(** The test handed to [find] only reads the line's colour up to case. *)
Lemma lineMatches_case sku size c c' si :
  Js.toLowerCase c = Js.toLowerCase c' ->
  lineMatches sku size (Some c) si = lineMatches sku size (Some c') si.
Proof.
  intros H. unfold lineMatches, Js.truthy. rewrite H.
  replace (c =? "") with (c' =? ""); [reflexivity |].
  destruct (String.eqb_spec c' "") as [-> | Hne'], (String.eqb_spec c "") as [-> | Hne];
    try reflexivity.
  - simpl in H. apply (proj1 (toLowerCase_empty c)) in H. contradiction.
  - simpl in H. symmetry in H. apply (proj1 (toLowerCase_empty c')) in H. contradiction.
Qed.

Lemma find_ext {A} (p q : A -> bool) (l : list A) :
  (forall x, p x = q x) -> find p l = find q l.
Proof. intros H. induction l as [| a l IH]; simpl; [reflexivity |]. now rewrite H, IH. Qed.





(** The answer does not depend on the case of the line's colour. *)
Theorem line_colour_case_irrelevant sku size c c' softInventory :
  Js.toLowerCase c = Js.toLowerCase c' ->
  checkSoftStock sku size (Some c) softInventory =
  checkSoftStock sku size (Some c') softInventory.
Proof.
  intros H. unfold checkSoftStock.
  rewrite (find_ext (lineMatches sku size (Some c)) (lineMatches sku size (Some c')));
    [reflexivity |].
  intros si. now apply lineMatches_case.
Qed.

Lemma line_colour_case_irrelevant_witness :
  checkSoftStock "A1" "M" (Some "RED") soldOutThenRestocked =
  checkSoftStock "A1" "M" (Some "red") soldOutThenRestocked.
Proof.
  apply (line_colour_case_irrelevant "A1" "M" "RED" "red" soldOutThenRestocked).
  reflexivity.
Defined.

(** A line whose colour is the empty string is looked up like a line with no
    colour: the entries' colours are not compared at all. *)
Theorem empty_colour_is_no_colour sku size softInventory :
  checkSoftStock sku size (Some "") softInventory =
  checkSoftStock sku size None softInventory.
Proof.
  unfold checkSoftStock. now rewrite (find_ext _ (lineMatches sku size None)).
Qed.

(** A line that names a colour is never matched by an entry without one: if
    no entry for the line has a colour, the line is out of stock. *)
Theorem colourless_entries_never_match sku size c softInventory :
  c <> "" ->
  (forall si, In si softInventory -> si_sku si = sku -> si_size si = size ->
     si_color si = None) ->
  checkSoftStock sku size (Some c) softInventory = false.
Proof.
  intros Hne Hall. destruct (checkSoftStock sku size (Some c) softInventory) eqn:E;
    [| reflexivity].
  apply checkSoftStock_true_iff in E as (b & si & t & -> & _ & (Hs & Hz & Hc) & _).
  destruct (Hc c eq_refl Hne) as (c' & Hc' & _).
  rewrite (Hall si) in Hc'; [discriminate | | assumption | assumption].
  apply in_or_app. right. now left.
Qed.

Lemma colourless_entries_never_match_witness :
  checkSoftStock "A1" "M" (Some "red") soldOutThenRestocked = false.
Proof.
  apply (colourless_entries_never_match "A1" "M" "red" soldOutThenRestocked).
  - discriminate.
  - intros si [<- | [<- | []]] _ _; reflexivity.
Defined.

End StockLaws.

(** ** The daily-orders tab *)

Module BrandDailyOrdersTabLaws.
Import Eff Api Stock BrandDailyOrdersTab BrandDailyOrdersTabView.
Import BrandDailyOrdersTabExamples BrandDailyOrdersTabMoreExamples BrandDailyOrdersTabFacts.

Ltac run_tab :=
  cbv delta [toast fetchData fetchData_start fetchData_resume runFetchData]; eff_run.

(** *** Selecting *)

Lemma existsb_false_filter {A} (p : A -> bool) (l : list A) :
  existsb p l = false -> List.filter p l = [].
Proof.
  induction l as [| a l IH]; simpl; [reflexivity |].
  destruct (p a); simpl; [discriminate | assumption].
Qed.

Lemma size_fold_insert (ids : list string) (m : gmap string bool) :
  NoDup ids -> (forall i, In i ids -> m !! i = None) ->
  base.size (fold_left (fun sel i => <[i := true]> sel) ids m) =
  (length ids + base.size m)%nat.
Proof.
  revert m. induction ids as [| i ids IH]; intros m Hnd Hfresh; simpl; [reflexivity |].
  apply NoDup_cons in Hnd as [Hi Hnd]. rewrite list_elem_of_In in Hi.
  rewrite IH; [| assumption |].
  - rewrite map_size_insert_None by (apply Hfresh; now left). lia.
  - intros j Hj. rewrite lookup_insert_ne by (intros ->; contradiction).
    apply Hfresh. now right.
Qed.

(** The count on the button, over the entries of the selection. *)
Lemma count_true_all (l : list (string * bool)) :
  (forall kv, In kv l -> snd kv = true) ->
  length (List.filter (fun b : bool => b) (map snd l)) = length l.
Proof.
  induction l as [| kv l IH]; intros H; simpl; [reflexivity |].
  rewrite (H kv) by now left. simpl. f_equal. apply IH. intros x Hx. apply H. now right.
Qed.

Lemma count_zero_iff (l : list (string * bool)) :
  length (List.filter (fun b : bool => b) (map snd l)) = 0%nat <->
  forall kv, In kv l -> snd kv = false.
Proof.
  induction l as [| [k v] l IH]; simpl.
  - split; [intros _ kv [] | reflexivity].
  - destruct v; simpl.
    + split; [discriminate |]. intros H. specialize (H (k, true) (or_introl eq_refl)).
      discriminate H.
    + rewrite IH. split.
      * intros H kv [<- | Hin]; [reflexivity | now apply H].
      * intros H kv Hin. apply H. now right.
Qed.

(** The submit button is disabled exactly while a submission runs or when no
    id is selected. *)
Theorem submit_disabled_iff (s : State) :
  submitDisabled s = true <->
  isSubmitting s = true \/ forall k, rowSelection s !! k <> Some true.
Proof.
  unfold submitDisabled, selectedRowCount.
  rewrite orb_true_iff, Nat.eqb_eq, count_zero_iff. apply or_iff_compat_l. split.
  - intros H k Hk. apply elem_of_map_to_list, list_elem_of_In in Hk.
    specialize (H _ Hk). discriminate H.
  - intros H [k v] Hin. apply list_elem_of_In, elem_of_map_to_list in Hin.
    destruct v; [now destruct (H k) | reflexivity].
Qed.

(** The header checkbox is enabled exactly when ticking it selects
    something. *)
Theorem header_enabled_iff_selects rows softInventory :
  headerDisabled rows softInventory = false <->
  selectAllOnCheckedChange rows softInventory (Checked true) <> ∅.
Proof.
  unfold headerDisabled, isOutOfStockHeader. rewrite negb_false_iff. split.
  - intros H Hempty. apply existsb_exists in H as (row & Hin & Hs).
    apply negb_true_iff in Hs.
    pose proof (selectAll_lookup rows softInventory (Checked true) (row_id row)) as Hl.
    rewrite Hempty, lookup_empty in Hl. simpl in Hl.
    replace (Js.includes _ (row_id row)) with true in Hl; [discriminate |].
    symmetry. apply includes_In, in_map, filter_In. split; [assumption |]. now rewrite Hs.
  - intros H. destruct (existsb _ rows) eqn:E; [reflexivity |].
    exfalso. apply H. unfold selectAllOnCheckedChange.
    now rewrite (existsb_false_filter _ _ E).
Qed.

(** After ticking the header checkbox the selection counts one id per
    out-of-stock row (row ids being unique); after unticking it, none. *)
Theorem select_all_count rows softInventory value :
  NoDup (map row_id rows) ->
  selectedRowCount (selectAllOnCheckedChange rows softInventory value) =
  if checkedTruthy value
  then length (List.filter (fun row => negb (isInStock softInventory (original row))) rows)
  else 0%nat.
Proof.
  intros Hnd. unfold selectedRowCount. rewrite count_true_all.
  - rewrite length_map_to_list. unfold selectAllOnCheckedChange.
    destruct (checkedTruthy value); [| apply map_size_empty].
    rewrite size_fold_insert.
    + rewrite map_size_empty, length_map. lia.
    + clear -Hnd. induction rows as [| r rows IH]; simpl in *; [constructor |].
      apply NoDup_cons in Hnd as [Hr Hnd]. destruct (negb _); simpl; [| now apply IH].
      apply NoDup_cons. split; [| now apply IH].
      rewrite list_elem_of_In, in_map_iff in *. intros (r' & Hid & Hin).
      apply Hr. exists r'. split; [assumption |]. now apply filter_In in Hin as [Hin _].
    + intros i _. apply lookup_empty.
  - intros [k v] Hin. apply list_elem_of_In, elem_of_map_to_list in Hin.
    rewrite selectAll_lookup in Hin. simpl. destruct (_ && _); congruence.
Qed.

Lemma select_all_count_witness :
  selectedRowCount (selectAllOnCheckedChange exampleRows exampleInventory (Checked true)) = 1%nat.
Proof.
  refine (select_all_count exampleRows exampleInventory (Checked true) _).
  simpl. apply NoDup_cons. split.
  - intros H. apply list_elem_of_In in H. simpl in H. destruct H as [H | []]. discriminate H.
  - apply NoDup_cons. split; [| apply NoDup_nil; exact I].
    intros H. apply list_elem_of_In in H. destruct H.
Defined.

(** For every row of the table, three renderings agree: the row's own
    checkbox is enabled, its badge reads "Out of Stock", and ticking the header
    checkbox selects it (row ids being unique). *)
Theorem row_controls_agree rows softInventory value row :
  NoDup (map row_id rows) -> In row rows -> checkedTruthy value = true ->
  (cellDisabled softInventory row = false <->
   stockBadge softInventory row = (Destructive, "Out of Stock")) /\
  (cellDisabled softInventory row = false <->
   selectAllOnCheckedChange rows softInventory value !! row_id row = Some true).
Proof.
  intros Hnd Hin Hv. unfold cellDisabled, stockBadge. split.
  - destruct (isInStock softInventory (original row)); split; congruence.
  - rewrite selectAll_lookup, Hv. cbn [andb]. split.
    + intros Hs. replace (Js.includes _ (row_id row)) with true; [reflexivity |].
      symmetry. apply includes_In, in_map, filter_In. split; [assumption |]. now rewrite Hs.
    + destruct (Js.includes _ (row_id row)) eqn:Hi; [intros _ | discriminate].
      apply includes_In, in_map_iff in Hi as (row' & Hid & Hin').
      apply filter_In in Hin' as [Hin' Hs']. apply negb_true_iff in Hs'.
      now rewrite <- (NoDup_map_eq row_id rows row' row Hnd Hin' Hin Hid).
Qed.

Lemma row_controls_agree_witness :
  cellDisabled exampleInventory exampleRow1 = false <->
  selectAllOnCheckedChange exampleRows exampleInventory (Checked true) !! "1" = Some true.
Proof.
  refine (proj2 (row_controls_agree exampleRows exampleInventory (Checked true) exampleRow1
                   _ _ eq_refl)).
  - simpl. apply NoDup_cons. split.
    + intros H. apply list_elem_of_In in H. simpl in H. destruct H as [H | []]. discriminate H.
    + apply NoDup_cons. split; [| apply NoDup_nil; exact I].
      intros H. apply list_elem_of_In in H. destruct H.
  - right. left. reflexivity.
Defined.

(** *** Fetching *)

(** Whatever the backend does, a fetch issues its two requests once each,
    lowers the loading flag at the end, and leaves the row selection and the
    submitting flag alone. *)
Theorem tab_fetch_settles api p s :
  List.filter isNetworkCall (snd (runFetchData api p s)) =
    [EGetBrandDailyOrders (brandId p) (today p);
     EGetSoftInventoryItems 1 500 (brandName p)] /\
  isLoading (fst (runFetchData api p s)) = false /\
  rowSelection (fst (runFetchData api p s)) = rowSelection s /\
  isSubmitting (fst (runFetchData api p s)) = isSubmitting s.
Proof.
  run_tab. repeat (case_inner; run_tab); repeat split.
Qed.

(** When the orders arrive but the soft inventory does not (its response is
    not "OK" or carries no items), the orders are shown, the snapshot becomes
    empty, no error is notified, and every order then counts as out of
    stock. *)
Theorem fetchData_without_inventory api p s r ri os :
  getBrandDailyOrders api (brandId p) (today p) = Fulfilled r ->
  type r = OK -> data r ≫= orders = Some os ->
  getSoftInventoryItems api 1 500 (brandName p) = Fulfilled ri ->
  type ri = ERROR \/ data ri ≫= softInventoryItems = None ->
  let s' := fst (runFetchData api p s) in
  dailyOrders s' = os /\ softInventory s' = [] /\
  List.filter isErrorToast (snd (runFetchData api p s)) = [] /\
  forall o, In o (dailyOrders s') -> isInStock (softInventory s') o = false.
Proof.
  intros Hr Ht Hd Hri Hfail. cbv zeta.
  assert (Hrun : fst (runFetchData api p s) =
                 setIsLoading false (setSoftInventory [] (setDailyOrders os (setIsLoading true s)))
                 /\ List.filter isErrorToast (snd (runFetchData api p s)) = []).
  { unfold mbind, option_bind in Hd, Hfail. run_tab. rewrite Hr, Hri. run_tab.
    rewrite Ht, Hd. run_tab.
    destruct Hfail as [Hti | Hdi].
    - rewrite Hti. run_tab. split; reflexivity.
    - rewrite Hdi. destruct (type ri); run_tab; split; reflexivity. }
  destruct Hrun as [-> ->]. repeat split.
Qed.

(** When either request is rejected, nothing of the answer of the other is
    used: orders and snapshot stay as they were and one error is notified. *)
Theorem fetchData_rejected api p s :
  (exists e, getBrandDailyOrders api (brandId p) (today p) = Rejected e) \/
  (exists e, getSoftInventoryItems api 1 500 (brandName p) = Rejected e) ->
  runFetchData api p s =
    (setIsLoading false (setIsLoading true s),
     [EGetBrandDailyOrders (brandId p) (today p);
      EGetSoftInventoryItems 1 500 (brandName p);
      EToast {| title := "Error"; description := "An error occurred while fetching data.";
                variant := Some Destructive |}]).
Proof.
  intros [(e & He) | (e & He)]; run_tab; rewrite He; run_tab; [reflexivity |].
  destruct (getBrandDailyOrders api _ _); run_tab; reflexivity.
Qed.

Lemma fetchData_without_inventory_witness :
  dailyOrders (fst (runFetchData apiWithoutInventory exampleProps (exampleState ∅))) =
    [exampleOrder1; exampleOrder2] /\
  softInventory (fst (runFetchData apiWithoutInventory exampleProps (exampleState ∅))) = [].
Proof.
  destruct (fetchData_without_inventory apiWithoutInventory exampleProps (exampleState ∅)
              (okResponse (Some {| orders := Some [exampleOrder1; exampleOrder2] |}))
              (unavailable "Inventory is down.") [exampleOrder1; exampleOrder2]
              eq_refl eq_refl eq_refl eq_refl (or_introl eq_refl)) as (H1 & H2 & _).
  split; [exact H1 | exact H2].
Defined.

Lemma fetchData_rejected_witness :
  fst (runFetchData apiOffline exampleProps (exampleState ∅)) =
  setIsLoading false (setIsLoading true (exampleState ∅)).
Proof.
  rewrite (fetchData_rejected apiOffline exampleProps (exampleState ∅)); [reflexivity |].
  left. exists None. reflexivity.
Defined.

(** *** Submitting *)

(** The calls of [submitBrandOrdersToPlaced] one click makes. *)
Lemma submit_calls api p s :
  List.filter isSubmitCall (snd (clickSubmitSelected api p s)) =
  match actualOutOfStockOrders s with
  | [] => []
  | _ :: _ => [ESubmitBrandOrdersToPlaced (brandId p) (map id (actualOutOfStockOrders s))]
  end.
Proof.
  unfold clickSubmitSelected, handleSubmitSelected, handleSubmitSelected_body.
  destruct (length (ordersToSubmit s) =? 0)%nat eqn:E1.
  { apply length_zero_nil in E1. unfold actualOutOfStockOrders. rewrite E1. reflexivity. }
  destruct (length (actualOutOfStockOrders s) =? 0)%nat eqn:E2.
  { apply length_zero_nil in E2. rewrite E2. reflexivity. }
  destruct (actualOutOfStockOrders s) as [| o outs] eqn:E; [discriminate E2 |].
  run_tab. repeat (case_inner; run_tab); reflexivity.
Qed.

(** An accepted submission reports how many orders went, clears the
    selection, refetches orders and inventory, and ends not submitting. *)
Theorem submit_accepted api p s r :
  actualOutOfStockOrders s <> [] ->
  submitBrandOrdersToPlaced api (brandId p) (map id (actualOutOfStockOrders s)) = Fulfilled r ->
  type r = OK ->
  rowSelection (fst (clickSubmitSelected api p s)) = ∅ /\
  isSubmitting (fst (clickSubmitSelected api p s)) = false /\
  exists rest,
    snd (clickSubmitSelected api p s) =
      ESubmitBrandOrdersToPlaced (brandId p) (map id (actualOutOfStockOrders s)) ::
      EToast {| title := "Success";
                description :=
                  (showNat (length (actualOutOfStockOrders s)) ++
                   " orders submitted to 'Order Placed'.")%string;
                variant := None |} ::
      EGetBrandDailyOrders (brandId p) (today p) ::
      EGetSoftInventoryItems 1 500 (brandName p) :: rest.
Proof.
  intros Hne Hr Ht.
  unfold clickSubmitSelected, handleSubmitSelected, handleSubmitSelected_body.
  destruct (length (ordersToSubmit s) =? 0)%nat eqn:E1.
  { apply length_zero_nil in E1. unfold actualOutOfStockOrders in Hne.
    rewrite E1 in Hne. now destruct Hne. }
  destruct (length (actualOutOfStockOrders s) =? 0)%nat eqn:E2.
  { apply length_zero_nil in E2. contradiction. }
  run_tab. rewrite Hr. run_tab. rewrite Ht. run_tab.
  repeat (case_inner; run_tab); repeat split; eexists; reflexivity.
Qed.

(** A refused or failed submission notifies an error and changes nothing
    else: the selection and the orders stay, and nothing is refetched. *)
Theorem submit_refused api p s :
  actualOutOfStockOrders s <> [] ->
  (exists r, submitBrandOrdersToPlaced api (brandId p) (map id (actualOutOfStockOrders s))
             = Fulfilled r /\ type r = ERROR) \/
  (exists e, submitBrandOrdersToPlaced api (brandId p) (map id (actualOutOfStockOrders s))
             = Rejected e) ->
  exists t,
    clickSubmitSelected api p s =
      (setIsSubmitting false (setIsSubmitting true s),
       [ESubmitBrandOrdersToPlaced (brandId p) (map id (actualOutOfStockOrders s)); EToast t]) /\
    variant t = Some Destructive.
Proof.
  intros Hne H.
  unfold clickSubmitSelected, handleSubmitSelected, handleSubmitSelected_body.
  destruct (length (ordersToSubmit s) =? 0)%nat eqn:E1.
  { apply length_zero_nil in E1. unfold actualOutOfStockOrders in Hne.
    rewrite E1 in Hne. now destruct Hne. }
  destruct (length (actualOutOfStockOrders s) =? 0)%nat eqn:E2.
  { apply length_zero_nil in E2. contradiction. }
  run_tab. destruct H as [(r & -> & Ht) | (e & ->)]; run_tab.
  - rewrite Ht. run_tab. eexists. split; reflexivity.
  - eexists. split; reflexivity.
Qed.

Lemma submit_accepted_witness :
  rowSelection (fst (clickSubmitSelected exampleApi exampleProps
                       (exampleState {[ "o2" := true ]}))) = ∅.
Proof.
  refine (proj1 (submit_accepted exampleApi exampleProps (exampleState {[ "o2" := true ]})
                   (okResponse None) _ eq_refl eq_refl)).
  vm_compute. discriminate.
Defined.

Lemma submit_refused_witness :
  exists t,
    clickSubmitSelected apiOffline exampleProps (exampleState {[ "o2" := true ]}) =
      (setIsSubmitting false (setIsSubmitting true (exampleState {[ "o2" := true ]})),
       [ESubmitBrandOrdersToPlaced "b1" ["o2"]; EToast t]).
Proof.
  assert (Hne : actualOutOfStockOrders (exampleState {[ "o2" := true ]}) <> [])
    by (vm_compute; discriminate).
  destruct (submit_refused apiOffline exampleProps (exampleState {[ "o2" := true ]}) Hne
              (or_intror (ex_intro _ None eq_refl))) as (t & Ht & _).
  exists t. exact Ht.
Defined.

(** *** Selecting, then submitting *)

Lemma filter_filter_absorb {A} (p q : A -> bool) (l : list A) :
  (forall x, In x l -> p x = true -> q x = true) ->
  List.filter p (List.filter q l) = List.filter p l.
Proof.
  intros H. induction l as [| a l IH]; simpl; [reflexivity |].
  assert (IH' : List.filter p (List.filter q l) = List.filter p l).
  { apply IH. intros x Hx. apply H. now right. }
  destruct (q a) eqn:Hq; simpl.
  - now rewrite IH'.
  - destruct (p a) eqn:Hp; [| assumption].
    rewrite (H a) in Hq; [discriminate | now left | assumption].
Qed.

(** In a table keyed by order id, ticking the header checkbox and pressing
    submit sends every out-of-stock order of the list, in list order, and
    nothing else; with no such order, no call is made. *)
Theorem select_all_then_submit api p s :
  List.filter isSubmitCall
    (snd (clickSubmitSelected api p
            (tickSelectAll (rowsById (dailyOrders s)) (Checked true) s))) =
  match List.filter (fun o => negb (isInStock (softInventory s) o)) (dailyOrders s) with
  | [] => []
  | outs => [ESubmitBrandOrdersToPlaced (brandId p) (map id outs)]
  end.
Proof.
  rewrite submit_calls.
  assert (H : actualOutOfStockOrders
                (tickSelectAll (rowsById (dailyOrders s)) (Checked true) s) =
              List.filter (fun o => negb (isInStock (softInventory s) o)) (dailyOrders s)).
  { unfold actualOutOfStockOrders. rewrite ordersToSubmit_filter.
    cbn [tickSelectAll setRowSelection softInventory dailyOrders rowSelection].
    apply filter_filter_absorb. intros o Hin Hs.
    apply bool_decide_eq_true. rewrite selectAll_lookup. simpl.
    replace (Js.includes _ (id o)) with true; [reflexivity |].
    symmetry. apply includes_In, in_map_iff.
    exists {| row_id := id o; original := o |}. split; [reflexivity |].
    apply filter_In. split; [| exact Hs].
    unfold rowsById. apply in_map_iff. now exists o. }
  rewrite H. now destruct (List.filter _ (dailyOrders s)).
Qed.

Example select_all_then_submit_example :
  List.filter isSubmitCall
    (snd (clickSubmitSelected exampleApi exampleProps
            (tickSelectAll (rowsById [exampleOrder1; exampleOrder2]) (Checked true)
               (exampleState ∅)))) =
  [ESubmitBrandOrdersToPlaced "b1" ["o2"]].
Proof. vm_compute. reflexivity. Qed.

End BrandDailyOrdersTabLaws.

(** ** The edit-brand page *)

Module EditBrandPageFacts.
Import Eff Api EditBrandPage EditBrandPageExamples.

Ltac run_page := cbv delta [toast fetchBrand effect mount]; eff_run.

Lemma fetchBrand_run api paramsId s :
  run (fetchBrand api paramsId) s =
  match delivered (getBrandById api paramsId) with
  | Some b => ({| brand := Some b; isLoading := false |}, [EGetBrandById paramsId])
  | None =>
      ({| brand := brand s; isLoading := false |},
       [EGetBrandById paramsId;
        EToast {| title := "Error";
                  description :=
                    match getBrandById api paramsId with
                    | Fulfilled resp =>
                        Js.orElse (message resp) "Failed to fetch brand details."
                    | Rejected _ => "An error occurred while fetching brand details."
                    end;
                  variant := Some Destructive |}])
  end.
Proof.
  unfold delivered. run_page.
  destruct (getBrandById api paramsId) as [r | e]; run_page; [| reflexivity].
  destruct (type r); run_page; [| reflexivity].
  destruct (data r) as [d |]; run_page; [| reflexivity].
  destruct (data_brand d); reflexivity.
Qed.

(** Mounted with an id, the page makes one request and then shows the form
    for the brand delivered, or, after one error notification, the not-found
    header. *)
Theorem mount_shows_form_or_not_found api paramsId :
  paramsId <> "" ->
  match delivered (getBrandById api paramsId) with
  | Some b =>
      render (fst (mount api paramsId)) =
        EditBrand "Edit Brand" ("Updating brand: " ++ name b)%string b /\
      snd (mount api paramsId) = [EGetBrandById paramsId]
  | None =>
      render (fst (mount api paramsId)) = BrandNotFound /\
      exists t, snd (mount api paramsId) = [EGetBrandById paramsId; EToast t] /\
                variant t = Some Destructive
  end.
Proof.
  intros Hne. unfold mount, effect, Js.truthy.
  destruct (String.eqb_spec paramsId ""); [contradiction |]. cbn [negb].
  rewrite fetchBrand_run. destruct (delivered _); cbn [fst snd].
  - split; reflexivity.
  - split; [reflexivity |]. eexists. split; reflexivity.
Qed.

Lemma mount_shows_form_or_not_found_witness :
  render (fst (mount (answering (Fulfilled brandFound)) "b1")) =
    EditBrand "Edit Brand" "Updating brand: Acme" acme /\
  render (fst (mount (answering (Fulfilled brandMissing)) "b1")) = BrandNotFound.
Proof.
  split.
  - refine (proj1 (mount_shows_form_or_not_found (answering (Fulfilled brandFound)) "b1" _)).
    discriminate.
  - refine (proj1 (mount_shows_form_or_not_found (answering (Fulfilled brandMissing)) "b1" _)).
    discriminate.
Defined.

(** The page stays on its skeleton exactly when it is mounted without an
    id: then no request is made and the loading flag is never lowered. *)
Theorem skeleton_iff_no_id api paramsId :
  render (fst (mount api paramsId)) = Skeleton <-> paramsId = "".
Proof.
  unfold mount, effect, Js.truthy.
  destruct (String.eqb_spec paramsId "") as [-> | Hne]; cbn [negb].
  - split; reflexivity.
  - rewrite fetchBrand_run. split; [| contradiction].
    destruct (delivered _); cbn; discriminate.
Qed.

(** A fetch that fails keeps the brand loaded before: after the id changes
    to one that cannot be fetched, the form of the previous brand shows. *)
Theorem failed_fetch_keeps_brand api paramsId s :
  delivered (getBrandById api paramsId) = None ->
  brand (fst (run (fetchBrand api paramsId) s)) = brand s /\
  isLoading (fst (run (fetchBrand api paramsId) s)) = false.
Proof. intros H. rewrite fetchBrand_run, H. split; reflexivity. Qed.

Lemma failed_fetch_keeps_brand_witness :
  render (fst (run (fetchBrand (answering (Rejected None)) "b2")
                 {| brand := Some acme; isLoading := false |})) =
  EditBrand "Edit Brand" "Updating brand: Acme" acme.
Proof.
  destruct (failed_fetch_keeps_brand (answering (Rejected None)) "b2"
              {| brand := Some acme; isLoading := false |} eq_refl) as [Hb Hl].
  unfold render. rewrite Hl, Hb. reflexivity.
Defined.

End EditBrandPageFacts.

(** ** The products list page *)

Module ProductsPageLaws.
Import Eff Api ProductsPage ProductsPageEvents ProductsPageExamples ProductsPageMoreExamples.
Import ProductsPageFacts.

Ltac run_page :=
  cbv delta [toast fetchData fetchData_start fetchData_resume runFetchData
             handleDeleteRequested]; eff_run.

(** A fetch that fails (a rejected call, a type other than "OK", or no
    product list) notifies one error and keeps the rows and the pagination
    state as they were. *)
Theorem fetchData_failure_keeps_rows api s :
  (forall r, currentPage api s = Fulfilled r ->
     type r = ERROR \/ data r ≫= data_products = None) ->
  exists t,
    runFetchData api s =
      (setIsLoading false (setIsLoading true s),
       [EGetProducts (pageIndex (pagination s) + 1) (pageSize (pagination s)); EToast t]) /\
    variant t = Some Destructive.
Proof.
  unfold currentPage, mbind, option_bind. intros H. run_page.
  destruct (getProducts api _ _) as [r | e]; run_page;
    [| eexists; split; reflexivity].
  destruct (H r eq_refl) as [Ht | Hd].
  - rewrite Ht. run_page. eexists. split; reflexivity.
  - rewrite Hd. destruct (type r); run_page; eexists; split; reflexivity.
Qed.

Lemma fetchData_failure_keeps_rows_witness :
  products (fst (runFetchData (serverAnswering okWithoutProducts (Rejected None)) firstPage)) =
  products firstPage.
Proof.
  destruct (fetchData_failure_keeps_rows
              (serverAnswering okWithoutProducts (Rejected None)) firstPage) as (t & -> & _).
  - intros r [= <-]. right. reflexivity.
  - reflexivity.
Defined.

(** A fetch answered "OK" with a product list replaces the rows by that
    list, whether or not pagination data came along, and notifies nothing. *)
Theorem fetchData_replaces_rows api s r ps :
  currentPage api s = Fulfilled r -> type r = OK -> data r ≫= data_products = Some ps ->
  products (fst (runFetchData api s)) = ps /\
  isLoading (fst (runFetchData api s)) = false /\
  snd (runFetchData api s) =
    [EGetProducts (pageIndex (pagination s) + 1) (pageSize (pagination s))].
Proof.
  unfold currentPage, mbind, option_bind. intros Hr Ht Hd. run_page.
  rewrite Hr. run_page. rewrite Ht, Hd. run_page.
  destruct (Api.pagination r); repeat split.
Qed.

Lemma fetchData_replaces_rows_witness :
  products (fst (runFetchData (serverAnswering okWithProducts (Rejected None)) firstPage)) = [].
Proof.
  exact (proj1 (fetchData_replaces_rows (serverAnswering okWithProducts (Rejected None))
                  firstPage okWithProducts [] eq_refl eq_refl eq_refl)).
Defined.

(** Whatever the outcome of a confirmed delete, one delete call was made,
    the dialog is closed, the chosen id forgotten and the loading flag down. *)
Lemma confirmDelete_settles api s productId :
  itemToDeleteId s = Some productId -> productId <> "" ->
  List.filter isDeleteCall (snd (confirmDelete api s)) = [EDeleteProduct productId] /\
  isConfirmDeleteDialogOpen (fst (confirmDelete api s)) = false /\
  itemToDeleteId (fst (confirmDelete api s)) = None /\
  isLoading (fst (confirmDelete api s)) = false.
Proof.
  intros Hid Hne. unfold confirmDelete, handleConfirmDelete, handleConfirmDelete_body.
  rewrite Hid. unfold Js.truthy. destruct (String.eqb_spec productId ""); [contradiction |].
  cbn [negb]. run_page. repeat (case_inner; run_page); repeat split.
Qed.

(** Asking to delete a product and confirming makes one delete call, for
    that product; whatever the outcome, the dialog is then closed and the
    chosen id forgotten, so confirming again does nothing. *)
Theorem request_then_confirm_deletes_once api s productId :
  productId <> "" ->
  let asked := fst (run (handleDeleteRequested productId) s) in
  let done := fst (confirmDelete api asked) in
  isConfirmDeleteDialogOpen asked = true /\
  List.filter isDeleteCall (snd (confirmDelete api asked)) = [EDeleteProduct productId] /\
  isConfirmDeleteDialogOpen done = false /\
  itemToDeleteId done = None /\
  isLoading done = false /\
  confirmDelete api done = (done, []).
Proof.
  intros Hne. cbv zeta.
  set (asked := fst (run (handleDeleteRequested productId) s)).
  assert (Hid : itemToDeleteId asked = Some productId) by reflexivity.
  destruct (confirmDelete_settles api asked productId Hid Hne) as (Hc & Hd & Hi & Hl).
  split; [reflexivity |]. repeat (split; [assumption |]).
  apply confirmDelete_nothing_chosen. now rewrite Hi.
Qed.

Lemma request_then_confirm_deletes_once_witness :
  List.filter isDeleteCall
    (snd (confirmDelete (serverAnswering okWithProducts (Fulfilled refused))
            (fst (run (handleDeleteRequested "p7") firstPage)))) = [EDeleteProduct "p7"].
Proof.
  refine (proj1 (proj2 (request_then_confirm_deletes_once
            (serverAnswering okWithProducts (Fulfilled refused)) firstPage "p7" _))).
  discriminate.
Defined.

(** After an accepted delete, the rows shown are the ones the refetch of the
    current page returns: a product the server no longer lists is gone from
    the table. *)
Theorem delete_then_rows_from_server api s productId rd r ps :
  itemToDeleteId s = Some productId -> productId <> "" ->
  deleteProduct api productId = Fulfilled rd -> type rd = OK ->
  currentPage api s = Fulfilled r -> type r = OK -> data r ≫= data_products = Some ps ->
  products (fst (confirmDelete api s)) = ps /\
  pageIndex (pagination (fst (confirmDelete api s))) = pageIndex (pagination s) /\
  List.filter isErrorToast (snd (confirmDelete api s)) = [].
Proof.
  unfold currentPage, mbind, option_bind. intros Hid Hne Hrd Htd Hr Ht Hd.
  unfold confirmDelete, handleConfirmDelete, handleConfirmDelete_body.
  rewrite Hid. unfold Js.truthy. destruct (String.eqb_spec productId ""); [contradiction |].
  cbn [negb]. run_page. rewrite Hrd. run_page. rewrite Htd. run_page.
  rewrite Hr. run_page. rewrite Ht, Hd. run_page.
  destruct (Api.pagination r); repeat split.
Qed.

Lemma delete_then_rows_from_server_witness :
  products (fst (confirmDelete (serverAnswering okWithProducts (Fulfilled deletedOk))
                   (deleting "p7"))) = [].
Proof.
  refine (proj1 (delete_then_rows_from_server
            (serverAnswering okWithProducts (Fulfilled deletedOk)) (deleting "p7")
            "p7" deletedOk okWithProducts [] eq_refl _ eq_refl eq_refl
            eq_refl eq_refl eq_refl)).
  discriminate.
Defined.

End ProductsPageLaws.

(** ** The product form *)

Module ProductFormLaws.
Import Eff Api Zod ProductForm ProductFormEdits ProductFormEvents.
Import ProductFormExamples ProductFormFacts.

Ltac run_form := cbv delta [toast uploadNewFiles]; eff_run.

(** *** Removing images *)

Lemma filterNotIndex_past {A} (index i : nat) (l : list A) :
  (index < i)%nat -> filterNotIndex index i l = l.
Proof.
  revert i. induction l as [| x l IH]; intros i Hlt; simpl; [reflexivity |].
  destruct (Nat.eqb_spec i index); [lia |]. rewrite IH by lia. reflexivity.
Qed.

Lemma filterNotIndex_take_drop {A} (index i : nat) (l : list A) :
  (i <= index)%nat ->
  filterNotIndex index i l = take (index - i) l ++ drop (S (index - i)) l.
Proof.
  revert i. induction l as [| x l IH]; intros i Hle; simpl.
  - now rewrite take_nil.
  - destruct (Nat.eqb_spec i index) as [-> | Hne].
    + rewrite Nat.sub_diag. simpl. rewrite drop_0. apply filterNotIndex_past. lia.
    + rewrite IH by lia. replace (index - i)%nat with (S (index - S i)) by lia.
      reflexivity.
Qed.

Lemma removed_existing_urls (index : nat) (s : State) :
  existingImageUrls (handleRemoveExistingImage index s) =
  take index (existingImageUrls s) ++ drop (S index) (existingImageUrls s).
Proof.
  cbn [handleRemoveExistingImage setExistingImageUrls existingImageUrls].
  rewrite filterNotIndex_take_drop by lia. now rewrite Nat.sub_0_r.
Qed.

(** Removing an existing image drops the URL at that position and keeps the
    others in order; a position past the end removes nothing; the chosen
    files and the form's values are not touched. *)
Theorem remove_existing_image (index : nat) (s : State) :
  existingImageUrls (handleRemoveExistingImage index s) =
    take index (existingImageUrls s) ++ drop (S index) (existingImageUrls s) /\
  ((index < length (existingImageUrls s))%nat ->
   S (length (existingImageUrls (handleRemoveExistingImage index s))) =
   length (existingImageUrls s)) /\
  ((length (existingImageUrls s) <= index)%nat ->
   existingImageUrls (handleRemoveExistingImage index s) = existingImageUrls s) /\
  newImageFiles (handleRemoveExistingImage index s) = newImageFiles s /\
  formValues (handleRemoveExistingImage index s) = formValues s.
Proof.
  rewrite removed_existing_urls. split; [reflexivity |]. split; [| split; [| split; reflexivity]].
  - intros Hlt. rewrite length_app, length_take, length_drop. lia.
  - intros Hge. rewrite take_ge by lia. rewrite drop_ge by lia. apply app_nil_r.
Qed.

(** Removing an existing image and then saving sends the remaining existing
    URLs, in order, followed by the uploaded ones. *)
Theorem remove_then_update api s p values uploaded index :
  uploadSucceeds api s uploaded ->
  List.filter isUpdateCall
    (snd (submitValues (Some p) api values (handleRemoveExistingImage index s))) =
  [EUpdateProduct (Ecommerce.id p)
     (withImages
        ((take index (existingImageUrls s) ++ drop (S index) (existingImageUrls s))
           ++ uploaded) values)].
Proof.
  intros H.
  rewrite (update_requests api (handleRemoveExistingImage index s) p values uploaded H).
  now rewrite removed_existing_urls.
Qed.

Lemma remove_then_update_witness :
  List.filter isUpdateCall
    (snd (submitValues (Some mugProduct) (backendWith (Fulfilled uploadedTwo)) mug
            (handleRemoveExistingImage 0
               (formState [front] ["https://cdn/a.png"; "https://cdn/b.png"] mugInput)))) =
  [EUpdateProduct "p7"
     (withImages ["https://cdn/b.png"; "https://cdn/front.png"; "https://cdn/back.png"] mug)].
Proof.
  apply (remove_then_update (backendWith (Fulfilled uploadedTwo))
           (formState [front] ["https://cdn/a.png"; "https://cdn/b.png"] mugInput)
           mugProduct mug ["https://cdn/front.png"; "https://cdn/back.png"] 0).
  exists uploadedTwo. repeat split.
Defined.

(** The files a create request carries are the current selection: a new
    choice of files replaces the previous one, and a file removed from the
    choice is not sent. *)
Theorem files_sent_are_current_choice api s values (chosen : list File) (index : nat) :
  exists body,
    List.filter isRequest
      (snd (submitValues None api values
              (handleRemoveNewImageFile index (handleFileChange (Some chosen) s)))) =
      [ECreateProduct body] /\
    getAll "files" body = map FBlob (take index chosen ++ drop (S index) chosen).
Proof.
  eexists. split; [apply create_requests |].
  rewrite (proj1 (getAll_buildFormData _ _)).
  cbn [handleRemoveNewImageFile handleFileChange setNewImageFiles newImageFiles].
  rewrite filterNotIndex_take_drop by lia. now rewrite Nat.sub_0_r.
Qed.

(** *** The schema *)

















(** The brand select shows what was picked, and the form holds no brand
    exactly after "None" was picked; the other fields are not touched. *)
Theorem brand_select_round_trip (selectedValue : string) (f : FormInput) :
  brandSelectValue (changeBrandId selectedValue f) = selectedValue /\
  (in_brandId (changeBrandId selectedValue f) = None <->
   selectedValue = NONE_BRAND_ID_VALUE) /\
  in_price (changeBrandId selectedValue f) = in_price f /\
  in_categoryId (changeBrandId selectedValue f) = in_categoryId f /\
  in_name (changeBrandId selectedValue f) = in_name f.
Proof.
  unfold brandSelectValue, changeBrandId. cbn [in_brandId in_price in_categoryId in_name].
  destruct (String.eqb_spec selectedValue NONE_BRAND_ID_VALUE) as [-> | Hne].
  - repeat split; reflexivity.
  - repeat split; try reflexivity; [discriminate | contradiction].
Qed.

(** *** Submitting *)


(** Saving an existing product with no new file makes no upload call: the
    one request is the update, with the retained images. *)
Theorem update_without_new_files api s p values :
  newImageFiles s = [] ->
  exists payload,
    List.filter isRequest (snd (submitValues (Some p) api values s)) =
      [EUpdateProduct (Ecommerce.id p) payload] /\
    images payload = existingImageUrls s /\
    brandId payload = brandId values /\ price payload = price values.
Proof.
  intros H. exists (withImages (existingImageUrls s) values).
  split; [| repeat split].
  unfold submitValues, onSubmit. run_form. rewrite H. cbn [length Nat.ltb Nat.leb].
  run_form. rewrite app_nil_r. repeat (case_inner; run_form); reflexivity.
Qed.

Lemma update_without_new_files_witness :
  exists payload,
    List.filter isRequest
      (snd (submitValues (Some mugProduct) (backendWith (Rejected None)) mug
              (formState [] ["https://cdn/a.png"] mugInput))) =
      [EUpdateProduct "p7" payload] /\
    images payload = ["https://cdn/a.png"].
Proof.
  destruct (update_without_new_files (backendWith (Rejected None))
              (formState [] ["https://cdn/a.png"] mugInput) mugProduct mug eq_refl)
    as (payload & Hr & Hi & _).
  exists payload. split; [exact Hr | exact Hi].
Defined.

(** In the multipart body of a create request the always-present fields
    occur once each, as text; an empty-string sku or description is sent as
    an empty text, an unset one is left out. *)
Theorem create_body_fields values files :
  let body := buildFormData values files in
  getAll "name" body = [FText (name values)] /\
  getAll "price" body = [FNumberText (price values)] /\
  getAll "categoryId" body = [FText (categoryId values)] /\
  getAll "stock" body = [FNumberText (stock values)] /\
  getAll "inStock" body = [FText (if inStock values then "true" else "false")] /\
  getAll "status" body = [FText (statusString (status values))] /\
  getAll "isFeatured" body = [FText (if isFeatured values then "true" else "false")] /\
  getAll "sku" body = match sku values with Some k => [FText k] | None => [] end /\
  getAll "description" body =
    match description values with Some d => [FText d] | None => [] end.
Proof.
  cbv zeta. unfold buildFormData.
  rewrite fold_append_files, !getAll_app, !getAll_files_only.
  cbn [String.eqb Ascii.eqb Bool.eqb]. rewrite !app_nil_r.
  unfold entries, optString.
  destruct (description values), (brandId values), (sku values); repeat split.
Qed.

End ProductFormLaws.

(** ** Categories and brands for the product form *)

Module ProductFormRelatedFacts.
Import Eff Api ProductFormRelated ProductFormRelatedExamples.

Ltac run_load := cbv delta [toast loadRelatedData runLoadRelatedData]; eff_run.

(** When both calls are answered, each list is decided by its own response:
    a good answer replaces the list, a bad one keeps it and notifies one
    error; the other response plays no part. *)
Theorem related_lists_are_independent api s rc rb :
  fetchCategories api 1 100 = Fulfilled rc -> fetchBrands api 1 100 = Fulfilled rb ->
  let s' := fst (runLoadRelatedData api s) in
  categories s' =
    match type rc, data rc ≫= data_categories with
    | OK, Some cs => cs
    | _, _ => categories s
    end /\
  brands s' =
    match type rb, data rb ≫= data_brands with
    | OK, Some bs => bs
    | _, _ => brands s
    end /\
  isLoading s' = false /\
  length (List.filter isErrorToast (snd (runLoadRelatedData api s))) =
    (match type rc, data rc ≫= data_categories with OK, Some _ => 0 | _, _ => 1 end +
     match type rb, data rb ≫= data_brands with OK, Some _ => 0 | _, _ => 1 end)%nat.
Proof.
  intros Hc Hb. cbv zeta. run_load. rewrite Hc, Hb. run_load.
  destruct (type rc), (data rc) as [[[cs |]] |], (type rb), (data rb) as [[[bs |]] |];
    run_load; repeat split.
Qed.

Lemma related_lists_are_independent_witness :
  categories (fst (runLoadRelatedData
                     (relatedApi (Fulfilled categoriesOk) (Fulfilled brandsFailed))
                     nothingLoaded)) = [mugs].
Proof.
  exact (proj1 (related_lists_are_independent
                  (relatedApi (Fulfilled categoriesOk) (Fulfilled brandsFailed))
                  nothingLoaded categoriesOk brandsFailed eq_refl eq_refl)).
Defined.

(** When either call is rejected, neither list is updated, even if the other
    call was answered well: one error is notified and both lists stay. *)
Theorem related_rejection_loses_both api s :
  (exists e, fetchCategories api 1 100 = Rejected e) \/
  (exists e, fetchBrands api 1 100 = Rejected e) ->
  runLoadRelatedData api s =
    (setIsLoading false (setIsLoading true s),
     [EFetchCategories 1 100; EFetchBrands 1 100;
      EToast {| title := "Error"; description := "Failed to load related product data.";
                variant := Some Destructive |}]).
Proof.
  intros [(e & He) | (e & He)]; run_load; rewrite He; run_load; [reflexivity |].
  destruct (fetchCategories api 1 100); run_load; reflexivity.
Qed.

Lemma related_rejection_loses_both_witness :
  categories (fst (runLoadRelatedData
                     (relatedApi (Fulfilled categoriesOk) (Rejected None)) nothingLoaded)) = [].
Proof.
  rewrite (related_rejection_loses_both
             (relatedApi (Fulfilled categoriesOk) (Rejected None)) nothingLoaded);
    [reflexivity |].
  right. exists None. reflexivity.
Defined.

(** A failed response that carries no message is notified with the text
    "undefined" in place of the message. *)
Theorem related_failure_without_message api s rc rb :
  fetchCategories api 1 100 = Fulfilled rc -> fetchBrands api 1 100 = Fulfilled rb ->
  type rb = ERROR -> message rb = None ->
  In (EToast {| title := "Error"; description := "Failed to load brands: undefined";
                variant := Some Destructive |})
     (snd (runLoadRelatedData api s)).
Proof.
  intros Hc Hb Ht Hm. run_load. rewrite Hc, Hb. run_load. rewrite Ht, Hm.
  destruct (type rc), (data rc) as [[[cs |]] |]; run_load; simpl; auto.
Qed.

Lemma related_failure_without_message_witness :
  In (EToast {| title := "Error"; description := "Failed to load brands: undefined";
                variant := Some Destructive |})
     (snd (runLoadRelatedData (relatedApi (Fulfilled categoriesOk) (Fulfilled brandsFailed))
             nothingLoaded)).
Proof.
  exact (related_failure_without_message
           (relatedApi (Fulfilled categoriesOk) (Fulfilled brandsFailed)) nothingLoaded
           categoriesOk brandsFailed eq_refl eq_refl eq_refl eq_refl).
Defined.

End ProductFormRelatedFacts.

(** ** The customer page *)

Module CustomerDetailsPageFacts.
Import CustomerDetailsPage CustomerDetailsPageExamples.

(** The page shows a profile exactly when the query is settled without error
    and lists at least one user; the profile is the first user's, with a
    phone or address row only for a non-empty value.  While loading, neither
    an error nor data is shown; an error hides data that is present. *)
Theorem profile_iff_first_user (q : UseUser) :
  (forall i c ph ad, render q = Profile i c ph ad ->
     isLoading q = false /\ error q = false /\ users q ≫= head = Some c /\
     i = avatarInitial (name c) /\
     (ph = None <-> Js.truthy (phone c) = false) /\
     (ad = None <-> Js.truthy (address c) = false)) /\
  (isLoading q = false -> error q = false ->
   forall c, users q ≫= head = Some c -> exists i ph ad, render q = Profile i c ph ad) /\
  (isLoading q = true -> render q = Loading) /\
  (isLoading q = false -> error q = true ->
   render q = Failed "Failed to load customer details. Please try again later.").
Proof.
  unfold render. split; [| split; [| split]].
  - intros i c ph ad. destruct (isLoading q); [discriminate |].
    destruct (error q); [discriminate |].
    destruct (users q ≫= head) as [c' |]; [| discriminate].
    intros [= <- <- <- <-]. repeat split; unfold optionalRow;
      destruct (Js.truthy _) eqn:E; try congruence; try reflexivity.
    + destruct (phone c'); [discriminate | discriminate E].
    + destruct (address c'); [discriminate | discriminate E].
  - intros -> -> c ->. eauto.
  - intros ->. reflexivity.
  - intros -> ->. now destruct (users q ≫= head).
Qed.

Lemma profile_iff_first_user_witness :
  render {| users := Some [ada]; isLoading := false; error := false |} =
  Profile "A" ada None (Some "1 Main St").
Proof.
  destruct (proj1 (proj2 (profile_iff_first_user
              {| users := Some [ada]; isLoading := false; error := false |}))
              eq_refl eq_refl ada eq_refl) as (i & ph & ad & H).
  rewrite H. revert H. vm_compute. intros [= <- <- <-]. reflexivity.
Defined.

End CustomerDetailsPageFacts.
